(** * Hexadecimal string utilities of [ethereum.utils.hexadecimal]

    A shallow embedding of [src/ethereum/utils/hexadecimal.py] together
    with the CPython built-ins it calls ([str.startswith], slicing,
    [str.rjust], [bytes.fromhex] and [int(_, 16)]), and the properties
    the specification states about them. *)

From Stdlib Require Import Strings.Ascii Strings.String Strings.Byte.
From Stdlib Require Import List NArith ZArith Bool Lia.
Import ListNotations.

Local Open Scope char_scope.

(** ** Data model *)

(** A Python [str] is a sequence of code points.  The model keeps the code
    points below 256 (Latin-1), one [ascii] each; the code points below 128
    are the ASCII characters.  [py] reads a literal. *)
Definition str := list ascii.

Definition py (s : string) : str := list_ascii_of_string s.

(** A Python [bytes] object. *)
Definition Bytes := list byte.

(** Every failure of this module is a Python [ValueError]; the model keeps
    apart where it is raised: by [bytes.fromhex] ([DecodeError]), by
    [int(_, 16)] ([ParseError]) or by the constructor of a numeric type
    ([RangeError]). *)
Inductive error : Type :=
| DecodeError
| ParseError
| RangeError.

Inductive result (A : Type) : Type :=
| Ok (a : A)
| Err (e : error).

Arguments Ok {A} a.
Arguments Err {A} e.

Definition bind {A B : Type} (r : result A) (k : A -> result B) : result B :=
  match r with
  | Ok a => k a
  | Err e => Err e
  end.

Definition fmap {A B : Type} (f : A -> B) (r : result A) : result B :=
  bind r (fun a => Ok (f a)).

(** Whether a call returned. *)
Definition is_ok {A : Type} (r : result A) : bool :=
  match r with
  | Ok _ => true
  | Err _ => false
  end.

Notation "x <- r ;; k" := (bind r (fun x => k))
  (at level 61, r at next level, right associativity).

(** ** The built-ins of CPython the module calls *)

Module Py.

(** [s.startswith(prefix)]. *)
Fixpoint startswith (s prefix : str) {struct prefix} : bool :=
  match prefix with
  | [] => true
  | p :: prefix' =>
      match s with
      | [] => false
      | c :: s' => Ascii.eqb c p && startswith s' prefix'
      end
  end.

(** [s[n:]]. *)
Definition slice_from (s : str) (n : nat) : str := skipn n s.

(** [s.rjust(width, fillchar)]: [s] itself when it is already [width]
    long or longer. *)
Definition rjust (s : str) (width : nat) (fillchar : ascii) : str :=
  repeat fillchar (width - length s) ++ s.

(** [Py_ISSPACE]: space, and the controls 0x09 to 0x0d. *)
Definition Py_ISSPACE (c : ascii) : bool :=
  let n := N_of_ascii c in
  ((9 <=? n) && (n <=? 13) || (n =? 32))%N.

(** [_PyLong_DigitValue]: the value of an ASCII letter or digit, 37 for
    every other character. *)
Definition _PyLong_DigitValue (c : ascii) : N :=
  let n := N_of_ascii c in
  (if (48 <=? n) && (n <=? 57) then n - 48
   else if (97 <=? n) && (n <=? 122) then n - 97 + 10
   else if (65 <=? n) && (n <=? 90) then n - 65 + 10
   else 37)%N.

(** [(unsigned char)((top << 4) + bot)]. *)
Definition byte_of_nibbles (top bot : N) : byte :=
  match Byte.of_N ((N.shiftl top 4 + bot) mod 256) with
  | Some b => b
  | None => x00
  end.

(** [bytes.fromhex(s)] ([_PyBytes_FromHex]): runs of ASCII whitespace
    are skipped before each pair of digits and at the end, then two
    hexadecimal digits make a byte; a character above 127 is refused as
    any other character that is not a digit. *)
Fixpoint bytes_fromhex (s : str) : result Bytes :=
  match s with
  | [] => Ok []
  | c :: rest =>
      if Py_ISSPACE c then bytes_fromhex rest
      else
        let top := _PyLong_DigitValue c in
        if (16 <=? top)%N then Err DecodeError
        else
          match rest with
          | [] => Err DecodeError
          | c' :: rest' =>
              let bot := _PyLong_DigitValue c' in
              if (16 <=? bot)%N then Err DecodeError
              else fmap (cons (byte_of_nibbles top bot)) (bytes_fromhex rest')
          end
  end.

(** [Py_UNICODE_ISSPACE] on the code points below 256: the ASCII
    whitespace, the separators 0x1c to 0x1f, NEL and the no-break space. *)
Definition Py_UNICODE_ISSPACE (ch : ascii) : bool :=
  let n := N_of_ascii ch in
  ((9 <=? n) && (n <=? 13) || (28 <=? n) && (n <=? 32)
   || (n =? 133) || (n =? 160))%N.

(** [Py_UNICODE_TODECIMAL] on the code points below 256: the ASCII digits
    are the only decimal digits there. *)
Definition Py_UNICODE_TODECIMAL (ch : ascii) : option N :=
  let n := N_of_ascii ch in
  if ((48 <=? n) && (n <=? 57))%N then Some (n - 48)%N else None.

(** [PyUnicode_IS_ASCII], character by character. *)
Definition is_ascii (ch : ascii) : bool := (N_of_ascii ch <? 128)%N.

(** The loop of [_PyUnicode_TransformDecimalAndSpaceToASCII]: a code point
    below 127 is kept, Unicode whitespace becomes a space, a Unicode
    decimal digit its ASCII digit, and at any other character the buffer
    ends with a question mark. *)
Fixpoint transform_loop (u : str) : str :=
  match u with
  | [] => []
  | ch :: u' =>
      if (N_of_ascii ch <? 127)%N then ch :: transform_loop u'
      else if Py_UNICODE_ISSPACE ch then " " :: transform_loop u'
      else
        match Py_UNICODE_TODECIMAL ch with
        | Some decimal => ascii_of_N (48 + decimal) :: transform_loop u'
        | None => ["?"]
        end
  end.

(** [_PyUnicode_TransformDecimalAndSpaceToASCII]: an ASCII string is
    returned as it is. *)
Definition transform_decimal_and_space (u : str) : str :=
  if forallb is_ascii u then u else transform_loop u.

(** [while (Py_ISSPACE( *str)) ++str]. *)
Fixpoint skip_space (s : str) : str :=
  match s with
  | c :: s' => if Py_ISSPACE c then skip_space s' else s
  | [] => []
  end.

(** The digit loop of [long_from_binary_base] for base 16: hexadecimal
    digits with single underscores between them.  [prev] is the
    character before [p] (the loop starts it at NUL).  Returns the value
    read, the number of digits and the rest, or [None] at a doubled or
    trailing underscore. *)
Fixpoint scan_digits (p : str) (prev : ascii) (acc : N) (digits : nat)
  : option (N * nat * str) :=
  match p with
  | c :: p' =>
      if Ascii.eqb c "_" then
        if Ascii.eqb prev "_" then None
        else scan_digits p' c acc digits
      else if (_PyLong_DigitValue c <? 16)%N then
        scan_digits p' c (16 * acc + _PyLong_DigitValue c)%N (S digits)
      else if Ascii.eqb prev "_" then None
      else Some (acc, digits, p)
  | [] =>
      if Ascii.eqb prev "_" then None else Some (acc, digits, [])
  end.

(** The sign of [PyLong_FromString]. *)
Definition read_sign (s : str) : Z * str :=
  match s with
  | c :: s' =>
      if Ascii.eqb c "+" then (1%Z, s')
      else if Ascii.eqb c "-" then ((-1)%Z, s')
      else (1%Z, s)
  | [] => (1%Z, s)
  end.

(** The base prefix of [PyLong_FromString] for base 16: [0x] or [0X],
    and one underscore after it. *)
Definition read_base_prefix (s : str) : str :=
  match s with
  | c0 :: c1 :: s' =>
      if Ascii.eqb c0 "0" && (Ascii.eqb c1 "x" || Ascii.eqb c1 "X") then
        match s' with
        | c2 :: s'' => if Ascii.eqb c2 "_" then s'' else s'
        | [] => s'
        end
      else s
  | _ => s
  end.

(** [PyLong_FromString(str, &end, 16)] with the check of its caller that
    the whole buffer was read: no underscore before the first digit, at
    least one digit, and only whitespace after the last. *)
Definition long_from_string (buffer : str) : result Z :=
  let s0 := skip_space buffer in
  let (sign, s1) := read_sign s0 in
  let s2 := read_base_prefix s1 in
  if startswith s2 ["_"] then Err ParseError
  else
    match scan_digits s2 "000" 0%N 0 with
    | None => Err ParseError
    | Some (v, digits, rest) =>
        match digits, skip_space rest with
        | S _, [] => Ok (sign * Z.of_N v)%Z
        | _, _ => Err ParseError
        end
    end.

(** [int(u, 16)] for a [str] ([PyLong_FromUnicodeObject]). *)
Definition int16 (u : str) : result Z :=
  long_from_string (transform_decimal_and_space u).

End Py.

(** ** The types the module imports *)

(** Modelled from the spec: [Bytes8], [Bytes32], [Hash32], [Root], [Bloom]
    and [Address] are declared in [ethereum.base_types], [ethereum.crypto]
    and [ethereum.frontier.eth_types], outside this module.  By the spec
    the conversions make no length assertion and an input of another length
    is returned as decoded ([hex_to_hash("0x1234")] is two bytes long), so
    each constructor hands back the bytes it is given. *)
Definition Bytes8 (b : Bytes) : Bytes := b.
Definition Bytes32 (b : Bytes) : Bytes := b.
Definition Hash32 (b : Bytes) : Bytes := b.
Definition Root (b : Bytes) : Bytes := b.
Definition Bloom (b : Bytes) : Bytes := b.
Definition Address (b : Bytes) : Bytes := b.

(** Modelled from the spec: [Uint] and [U256] are declared in
    [ethereum.base_types], outside this module.  By the spec [Uint] is an
    unsigned integer without upper bound and [U256] is bounded to 256 bits,
    and it is the constructor that raises on a value out of its range. *)
Definition Uint (value : Z) : result Z :=
  if (value <? 0)%Z then Err RangeError else Ok value.

Definition U256 (value : Z) : result Z :=
  if (value <? 0)%Z || (2 ^ 256 <=? value)%Z then Err RangeError else Ok value.

(** ** [ethereum.utils.hexadecimal] *)

Definition has_hex_prefix (hex_string : str) : bool :=
  Py.startswith hex_string (py "0x").

Definition remove_hex_prefix (hex_string : str) : str :=
  if has_hex_prefix hex_string then
    Py.slice_from hex_string (length (py "0x"))
  else hex_string.

Definition hex_to_bytes (hex_string : str) : result Bytes :=
  Py.bytes_fromhex (remove_hex_prefix hex_string).

Definition hex_to_bytes8 (hex_string : str) : result Bytes :=
  fmap Bytes8 (Py.bytes_fromhex (Py.rjust (remove_hex_prefix hex_string) 16 "0")).

Definition hex_to_bytes32 (hex_string : str) : result Bytes :=
  fmap Bytes32 (Py.bytes_fromhex (Py.rjust (remove_hex_prefix hex_string) 64 "0")).

Definition hex_to_hash (hex_string : str) : result Bytes :=
  fmap Hash32 (Py.bytes_fromhex (remove_hex_prefix hex_string)).

Definition hex_to_root (hex_string : str) : result Bytes :=
  fmap Root (Py.bytes_fromhex (remove_hex_prefix hex_string)).

Definition hex_to_bloom (hex_string : str) : result Bytes :=
  fmap Bloom (Py.bytes_fromhex (remove_hex_prefix hex_string)).

Definition hex_to_address (hex_string : str) : result Bytes :=
  fmap Address (Py.bytes_fromhex (Py.rjust (remove_hex_prefix hex_string) 40 "0")).

Definition hex_to_uint (hex_string : str) : result Z :=
  n <- Py.int16 (remove_hex_prefix hex_string) ;; Uint n.

Definition hex_to_u256 (hex_string : str) : result Z :=
  n <- Py.int16 (remove_hex_prefix hex_string) ;; U256 n.

(** ** Vocabulary of the specification *)

(** A hexadecimal digit: 0-9, a-f, A-F. *)
Definition is_hex_digit (c : ascii) : bool :=
  let n := N_of_ascii c in
  ((48 <=? n) && (n <=? 57) || (97 <=? n) && (n <=? 102)
   || (65 <=? n) && (n <=? 70))%N.

(** A digit string: hexadecimal digits only. *)
Definition hex_digits (d : str) : bool := forallb is_hex_digit d.

(** The number of hexadecimal digits of a string. *)
Definition digit_count (t : str) : nat := length (filter is_hex_digit t).

(** The number a digit string writes in base 16. *)
Definition hex_value (d : str) : N :=
  fold_left (fun acc c => 16 * acc + Py._PyLong_DigitValue c)%N d 0%N.

(** The number a byte sequence writes, most significant byte first. *)
Definition be_value (bs : Bytes) : N :=
  fold_left (fun acc b => 256 * acc + Byte.to_N b)%N bs 0%N.

(** The bytes a digit string writes, two digits a byte from the left. *)
Fixpoint digit_pairs (d : str) : Bytes :=
  match d with
  | c :: c' :: d' =>
      Py.byte_of_nibbles (Py._PyLong_DigitValue c) (Py._PyLong_DigitValue c')
        :: digit_pairs d'
  | _ => []
  end.

(** [bs] is [d] written on [width] bytes, right-aligned after zero bytes:
    it is [width] long and writes the number [d] writes; when [d] has an
    even number of digits it is the bytes decoded from [d] after
    [width - len(d)/2] zero bytes. *)
Definition right_aligned (width : nat) (d : str) (bs : Bytes) : Prop :=
  length bs = width
  /\ be_value bs = hex_value d
  /\ (Nat.even (length d) = true ->
      exists tail, Py.bytes_fromhex d = Ok tail
                   /\ bs = repeat x00 (width - length tail) ++ tail).

(** The fields of a string: what stands between two ASCII whitespace
    characters, before the first and after the last; [word] is the field
    being read. *)
Fixpoint fields (t : str) (word : str) : list str :=
  match t with
  | [] => [word]
  | c :: t' =>
      if Py.Py_ISSPACE c then word :: fields t' []
      else fields t' (word ++ [c])
  end.

(** A field that [bytes.fromhex] reads: an even number of characters, all
    of them hexadecimal digits. *)
Definition field_ok (w : str) : bool :=
  Nat.even (length w) && hex_digits w.

(** A field that [bytes.fromhex] does not read: an odd number of
    characters, or a character that is not a hexadecimal digit. *)
Definition bad_field (w : str) : Prop :=
  Nat.odd (length w) = true \/ exists c, In c w /\ is_hex_digit c = false.

(** A string with an odd number of hexadecimal digits, or with a character
    outside 0-9, a-f, A-F. *)
Definition malformed (t : str) : Prop :=
  Nat.odd (digit_count t) = true
  \/ exists c, In c t /\ is_hex_digit c = false.

(** Hexadecimal digits with single underscores between them. *)
Inductive digit_run : str -> Prop :=
| run_last (d : ascii) :
    is_hex_digit d = true -> digit_run [d]
| run_digit (d : ascii) (r : str) :
    is_hex_digit d = true -> digit_run r -> digit_run (d :: r)
| run_underscore (d : ascii) (r : str) :
    is_hex_digit d = true -> digit_run r -> digit_run (d :: "_" :: r).

(** [hex_value] continued from the number [acc] read so far. *)
Definition hex_value_from (acc : N) (d : str) : N :=
  fold_left (fun acc c => 16 * acc + Py._PyLong_DigitValue c)%N d acc.

(** A digit run without its underscores. *)
Definition no_underscores (body : str) : str :=
  filter (fun c => negb (Ascii.eqb c "_")) body.

(** The number a digit run writes in base 16, its underscores left out. *)
Definition run_value (body : str) : N := hex_value (no_underscores body).

(** A string that is empty or has a character outside 0-9, a-f, A-F. *)
Definition not_digits (t : str) : Prop :=
  t = [] \/ exists c, In c t /\ is_hex_digit c = false.

(** The literals [int(_, 16)] reads, with the number each one writes:
    whitespace, a sign, a base prefix with one underscore after it, a
    digit run, whitespace; all but the digit run are optional. *)
Definition int16_literal (t : str) (n : Z) : Prop :=
  exists (ws1 : str) (sign : Z * str) (prefix body ws2 : str),
    t = ws1 ++ snd sign ++ prefix ++ body ++ ws2
    /\ forallb Py.Py_ISSPACE ws1 = true
    /\ In sign [(1%Z, []); (1%Z, ["+"]); ((-1)%Z, ["-"])]
    /\ In prefix [[]; py "0x"; py "0X"; py "0x_"; py "0X_"]
    /\ digit_run body
    /\ forallb Py.Py_ISSPACE ws2 = true
    /\ n = (fst sign * Z.of_N (run_value body))%Z.

(** ** Vocabulary of the further properties *)

(** The digit of [bytes.hex()] for a number below 16: one of
    [0123456789abcdef]. *)
Definition hex_char (n : N) : ascii :=
  if (n <? 10)%N then ascii_of_N (48 + n) else ascii_of_N (87 + n).

(** [bs.hex()]: two lower-case hexadecimal digits a byte. *)
Definition bytes_hex (bs : Bytes) : str :=
  flat_map
    (fun b => [hex_char (Byte.to_N b / 16); hex_char (Byte.to_N b mod 16)])
    bs.

(** An ASCII capital letter in lower case; any other character is kept. *)
Definition to_lower (c : ascii) : ascii :=
  let n := N_of_ascii c in
  if ((65 <=? n) && (n <=? 90))%N then ascii_of_N (n + 32) else c.

(** A string with its ASCII capital letters in lower case. *)
Definition lower (t : str) : str := map to_lower t.

(** What a padded conversion of width [width] does on a stripped string
    [t] without whitespace: it fails exactly when [t] has a character that
    is not a hexadecimal digit, or is longer than [2 * width] and of odd
    length; what it returns is [width] bytes long when [t] fits, and half
    as long as [t] otherwise. *)
Definition padded_outcome (width : nat) (t : str) (r : result Bytes) : Prop :=
  (r = Err DecodeError
   <-> hex_digits t = false
       \/ (2 * width < length t /\ Nat.odd (length t) = true))
  /\ match r with
     | Ok bs => 2 * length bs = Nat.max (2 * width) (length t)
     | Err e => e = DecodeError
     end.

Ltac each_char c := destruct c as [[] [] [] [] [] [] [] []].

(** ** Running the model on the scenarios of the specification *)

Example run_hex_to_bytes : hex_to_bytes (py "0x12aB") = Ok [x12; xab].
Proof. reflexivity. Qed.

Example run_hex_to_bytes_spaces : hex_to_bytes (py "0x12 34") = Ok [x12; x34].
Proof. reflexivity. Qed.

Example run_hex_to_uint : hex_to_uint (py "0xff") = Ok 255%Z.
Proof. reflexivity. Qed.

Example run_hex_to_uint_literal : hex_to_uint (py "0x 0X_f_F ") = Ok 255%Z.
Proof. reflexivity. Qed.

Example run_hex_to_uint_bad :
  map hex_to_uint
    [py ""; py "0x"; py "0x0x"; py "0x_1"; py "1__2"; py "1_"; py "+ 1";
     py "1 2"; py "-1"]
  = [Err ParseError; Err ParseError; Err ParseError; Err ParseError;
     Err ParseError; Err ParseError; Err ParseError; Err ParseError;
     Err RangeError].
Proof. reflexivity. Qed.

Example run_int16_no_break_space :
  Py.int16 (ascii_of_N 160 :: py "ff") = Ok 255%Z.
Proof. reflexivity. Qed.

Example run_fields : fields (py " 12  3") [] = [py ""; py "12"; py ""; py "3"].
Proof. reflexivity. Qed.

(** ** The prefix *)

Lemma has_hex_prefix_cons (s : str) :
  has_hex_prefix s = true <-> exists t, s = "0" :: "x" :: t.
Proof.
  unfold has_hex_prefix; simpl. split.
  - destruct s as [|a [|b t]]; simpl.
    + discriminate.
    + destruct (Ascii.eqb a "0"); discriminate.
    + destruct (Ascii.eqb_spec a "0"), (Ascii.eqb_spec b "x");
        simpl; try discriminate.
      subst. now exists t.
  - intros [t ->]. reflexivity.
Qed.

Lemma remove_hex_prefix_prefixed (t : str) :
  remove_hex_prefix ("0" :: "x" :: t) = t.
Proof. reflexivity. Qed.

Lemma remove_hex_prefix_unprefixed (s : str) :
  has_hex_prefix s = false -> remove_hex_prefix s = s.
Proof. unfold remove_hex_prefix. now intros ->. Qed.

Lemma hex_digit_not_x : is_hex_digit "x" = false.
Proof. reflexivity. Qed.

Lemma hex_digits_unprefixed (d : str) :
  hex_digits d = true -> has_hex_prefix d = false.
Proof.
  intros Hd. destruct (has_hex_prefix d) eqn:E; [|reflexivity].
  apply has_hex_prefix_cons in E as [t ->].
  unfold hex_digits in Hd. rewrite forallb_forall in Hd.
  specialize (Hd "x" (or_intror (or_introl eq_refl))).
  rewrite hex_digit_not_x in Hd. discriminate.
Qed.

(** C8: [has_hex_prefix s] holds exactly when [s] begins with the two
    characters [0x], the x in lower case; then [remove_hex_prefix s] is [s]
    without its first two characters, and otherwise it is [s]. *)
Theorem C8_prefix_detected_and_stripped (s : str) :
  (has_hex_prefix s = true <-> exists t, s = py "0x" ++ t)
  /\ (if has_hex_prefix s
      then remove_hex_prefix s = skipn 2 s
           /\ s = py "0x" ++ remove_hex_prefix s
      else remove_hex_prefix s = s)
  /\ has_hex_prefix (py "0X12") = false.
Proof.
  split; [apply has_hex_prefix_cons|]. split; [|reflexivity].
  destruct (has_hex_prefix s) eqn:E.
  - apply has_hex_prefix_cons in E as [t ->]. now split.
  - now apply remove_hex_prefix_unprefixed.
Qed.

(** C7, as the code has it: stripping twice is stripping once exactly
    when the stripped string does not itself begin with [0x]; so it is for
    every string without prefix.  The function removes one prefix, not
    every prefix. *)
Theorem C7_strip_twice (s : str) :
  (remove_hex_prefix (remove_hex_prefix s) = remove_hex_prefix s
   <-> has_hex_prefix (remove_hex_prefix s) = false)
  /\ (has_hex_prefix s = false ->
      remove_hex_prefix (remove_hex_prefix s) = remove_hex_prefix s).
Proof.
  split; [split|].
  - intros H. destruct (has_hex_prefix (remove_hex_prefix s)) eqn:E; [|reflexivity].
    apply has_hex_prefix_cons in E as [t E]. rewrite E in H.
    rewrite remove_hex_prefix_prefixed in H.
    apply (f_equal (@length ascii)) in H. simpl in H. lia.
  - apply remove_hex_prefix_unprefixed.
  - intros H. now rewrite !(remove_hex_prefix_unprefixed s H).
Qed.

Lemma C7_strip_twice_witness :
  remove_hex_prefix (remove_hex_prefix (py "12ab")) = remove_hex_prefix (py "12ab").
Proof. apply (C7_strip_twice (py "12ab")). reflexivity. Defined.

(** C7 fails on a string with two prefixes: the second stripping removes
    the second prefix. *)
Lemma C7_strip_twice_counterexample :
  ~ (forall s : str,
        remove_hex_prefix (remove_hex_prefix s) = remove_hex_prefix s).
Proof. intros H. specialize (H (py "0x0x12")). discriminate H. Qed.

(** ** Character classes *)

Lemma digit_value_hex (c : ascii) :
  (Py._PyLong_DigitValue c <? 16)%N = is_hex_digit c.
Proof. each_char c; reflexivity. Qed.

Lemma digit_value_not_hex (c : ascii) :
  (16 <=? Py._PyLong_DigitValue c)%N = negb (is_hex_digit c).
Proof. each_char c; reflexivity. Qed.

Lemma hex_digit_not_space (c : ascii) :
  is_hex_digit c = true -> Py.Py_ISSPACE c = false.
Proof. each_char c; intros H; try reflexivity; discriminate H. Qed.

Lemma space_not_hex_digit (c : ascii) :
  Py.Py_ISSPACE c = true -> is_hex_digit c = false.
Proof.
  intros H. destruct (is_hex_digit c) eqn:E; [|reflexivity].
  apply hex_digit_not_space in E. congruence.
Qed.

Lemma digit_value_bound (c : ascii) :
  is_hex_digit c = true -> (Py._PyLong_DigitValue c < 16)%N.
Proof. rewrite <- digit_value_hex. apply N.ltb_lt. Qed.

Lemma byte_of_nibbles_value (top bot : N) :
  (top < 16)%N -> (bot < 16)%N ->
  Byte.to_N (Py.byte_of_nibbles top bot) = (16 * top + bot)%N.
Proof.
  intros Ht Hb. unfold Py.byte_of_nibbles.
  rewrite N.shiftl_mul_pow2. change (2 ^ 4)%N with 16%N.
  rewrite N.mod_small by lia.
  destruct (Byte.of_N (top * 16 + bot)) as [b|] eqn:E.
  - apply Byte.to_of_N in E. lia.
  - apply Byte.of_N_None_iff in E. lia.
Qed.

(** ** [bytes.fromhex] *)

Lemma str_pair_ind (P : str -> Prop) :
  P [] ->
  (forall c, P [c]) ->
  (forall c c' r, P r -> P (c' :: r) -> P (c :: c' :: r)) ->
  forall t, P t.
Proof.
  intros Hnil Hone Hpair t.
  enough (H : P t /\ forall c, P (c :: t)) by apply H.
  induction t as [|a t [IH1 IH2]]; split; auto.
Qed.

Lemma fromhex_error (t : str) (e : error) :
  Py.bytes_fromhex t = Err e -> e = DecodeError.
Proof.
  revert e. induction t as [|c|c c' r IHr IHc'] using str_pair_ind;
    intros e; simpl.
  - discriminate.
  - destruct (Py.Py_ISSPACE c); [discriminate|].
    destruct (16 <=? _)%N; congruence.
  - destruct (Py.Py_ISSPACE c); [apply IHc'|].
    destruct (16 <=? Py._PyLong_DigitValue c)%N; [congruence|].
    destruct (16 <=? Py._PyLong_DigitValue c')%N; [congruence|].
    destruct (Py.bytes_fromhex r) as [bs|e'] eqn:E; simpl; [discriminate|].
    intros [= <-]. now apply IHr.
Qed.

Lemma fromhex_length (t : str) (bs : Bytes) :
  Py.bytes_fromhex t = Ok bs -> 2 * length bs = digit_count t.
Proof.
  unfold digit_count. revert bs.
  induction t as [|c|c c' r IHr IHc'] using str_pair_ind; intros bs.
  - intros [= <-]. reflexivity.
  - simpl. destruct (Py.Py_ISSPACE c) eqn:Hs.
    + intros [= <-]. now rewrite (space_not_hex_digit c Hs).
    + destruct (16 <=? _)%N; discriminate.
  - change (Py.bytes_fromhex (c :: c' :: r)) with
      (if Py.Py_ISSPACE c then Py.bytes_fromhex (c' :: r)
       else if (16 <=? Py._PyLong_DigitValue c)%N then Err DecodeError
       else if (16 <=? Py._PyLong_DigitValue c')%N then Err DecodeError
       else fmap (cons (Py.byte_of_nibbles (Py._PyLong_DigitValue c)
                          (Py._PyLong_DigitValue c'))) (Py.bytes_fromhex r)).
    destruct (Py.Py_ISSPACE c) eqn:Hs.
    + intros H. apply IHc' in H.
      change (filter is_hex_digit (c :: c' :: r)) with
        (if is_hex_digit c then c :: filter is_hex_digit (c' :: r)
         else filter is_hex_digit (c' :: r)).
      now rewrite (space_not_hex_digit c Hs).
    + rewrite !digit_value_not_hex.
      destruct (is_hex_digit c) eqn:Hc; [|discriminate].
      destruct (is_hex_digit c') eqn:Hc'; [|discriminate]. simpl negb. cbv iota.
      destruct (Py.bytes_fromhex r) as [bs'|] eqn:E; [|discriminate].
      intros [= <-]. specialize (IHr bs' eq_refl).
      simpl. rewrite Hc, Hc'. simpl. lia.
Qed.

Lemma fromhex_digits (d : str) :
  hex_digits d = true -> Nat.even (length d) = true ->
  Py.bytes_fromhex d = Ok (digit_pairs d).
Proof.
  induction d as [|c|c c' r IHr _] using str_pair_ind; intros Hd He.
  - reflexivity.
  - discriminate He.
  - simpl in Hd. apply andb_true_iff in Hd as [Hc Hd].
    apply andb_true_iff in Hd as [Hc' Hd].
    simpl. rewrite (hex_digit_not_space c Hc), !digit_value_not_hex, Hc, Hc'.
    simpl. now rewrite (IHr Hd He).
Qed.

Lemma digit_pairs_length (d : str) :
  Nat.even (length d) = true -> 2 * length (digit_pairs d) = length d.
Proof.
  induction d as [|c|c c' r IHr _] using str_pair_ind; intros He.
  - reflexivity.
  - discriminate He.
  - simpl in *. specialize (IHr He). lia.
Qed.

Lemma digit_pairs_app (a b : str) :
  Nat.even (length a) = true ->
  digit_pairs (a ++ b) = digit_pairs a ++ digit_pairs b.
Proof.
  induction a as [|c|c c' r IHr _] using str_pair_ind; intros He.
  - reflexivity.
  - discriminate He.
  - simpl. now rewrite (IHr He).
Qed.

Lemma digit_pairs_zeros (k : nat) :
  digit_pairs (repeat "0" (2 * k)) = repeat x00 k.
Proof.
  induction k as [|k IH]; [reflexivity|].
  replace (2 * S k) with (S (S (2 * k))) by lia.
  remember (2 * k) as m eqn:Hm.
  change (digit_pairs (repeat "0" (S (S m))))
    with (x00 :: digit_pairs (repeat "0" m)).
  now rewrite IH.
Qed.

Lemma be_value_digit_pairs_from (d : str) (acc : N) :
  hex_digits d = true -> Nat.even (length d) = true ->
  fold_left (fun a b => 256 * a + Byte.to_N b)%N (digit_pairs d) acc
  = fold_left (fun a c => 16 * a + Py._PyLong_DigitValue c)%N d acc.
Proof.
  revert acc. induction d as [|c|c c' r IHr _] using str_pair_ind;
    intros acc Hd He.
  - reflexivity.
  - discriminate He.
  - simpl in Hd. apply andb_true_iff in Hd as [Hc Hd].
    apply andb_true_iff in Hd as [Hc' Hd].
    cbn [digit_pairs fold_left]. rewrite (IHr _ Hd He). f_equal.
    rewrite byte_of_nibbles_value by now apply digit_value_bound.
    lia.
Qed.

Lemma be_value_digit_pairs (d : str) :
  hex_digits d = true -> Nat.even (length d) = true ->
  be_value (digit_pairs d) = hex_value d.
Proof. apply be_value_digit_pairs_from. Qed.

Lemma hex_value_zeros (k : nat) (d : str) :
  hex_value (repeat "0" k ++ d) = hex_value d.
Proof.
  unfold hex_value. rewrite fold_left_app. f_equal.
  induction k as [|k IH]; [reflexivity|]. simpl. exact IH.
Qed.

Lemma hex_digits_zeros (k : nat) (d : str) :
  hex_digits d = true -> hex_digits (repeat "0" k ++ d) = true.
Proof.
  unfold hex_digits. intros Hd. rewrite forallb_app, Hd, andb_true_r.
  induction k as [|k IH]; [reflexivity|]. simpl. exact IH.
Qed.

(** ** The conversions to bytes *)

Lemma fmap_wrapper (wrap : Bytes -> Bytes) (r : result Bytes) :
  (forall b, wrap b = b) -> fmap wrap r = r.
Proof. intros H. destruct r as [b|e]; simpl; [now rewrite H|reflexivity]. Qed.

Lemma rjust_long (t : str) (width : nat) (fillchar : ascii) :
  width <= length t -> Py.rjust t width fillchar = t.
Proof.
  intros H. unfold Py.rjust. now replace (width - length t) with 0 by lia.
Qed.

Lemma fromhex_rjust (width : nat) (d : str) :
  hex_digits d = true -> length d <= 2 * width ->
  exists bs, Py.bytes_fromhex (Py.rjust d (2 * width) "0") = Ok bs
             /\ right_aligned width d bs.
Proof.
  intros Hd Hlen. unfold Py.rjust.
  set (k := 2 * width - length d).
  assert (Hk : length (repeat "0" k ++ d) = 2 * width).
  { rewrite length_app, repeat_length. lia. }
  assert (He : Nat.even (length (repeat "0" k ++ d)) = true).
  { rewrite Hk. apply Nat.even_spec. now exists width. }
  exists (digit_pairs (repeat "0" k ++ d)). split; [|split; [|split]].
  - apply fromhex_digits; [now apply hex_digits_zeros|exact He].
  - apply digit_pairs_length in He. lia.
  - rewrite be_value_digit_pairs by (try apply hex_digits_zeros; assumption).
    apply hex_value_zeros.
  - intros Hev. exists (digit_pairs d). split; [now apply fromhex_digits|].
    pose proof (digit_pairs_length d Hev) as Hl.
    replace k with (2 * (width - length (digit_pairs d))) by lia.
    rewrite digit_pairs_app, digit_pairs_zeros; [reflexivity|].
    rewrite repeat_length. apply Nat.even_spec. now eexists.
Qed.

Lemma fromhex_oversize (width : nat) (t : str) :
  hex_digits t = true -> Nat.even (length t) = true ->
  2 * width < length t ->
  Py.rjust t (2 * width) "0" = t
  /\ exists bs, Py.bytes_fromhex (Py.rjust t (2 * width) "0") = Ok bs
                /\ Py.bytes_fromhex t = Ok bs
                /\ length bs = length t / 2
                /\ width < length bs.
Proof.
  intros Hd He Hlen. rewrite rjust_long by lia. split; [reflexivity|].
  exists (digit_pairs t). pose proof (digit_pairs_length t He) as Hl.
  split; [|split; [|split]]; try (now apply fromhex_digits); [|lia].
  rewrite <- Hl, Nat.mul_comm. symmetry. now apply Nat.div_mul.
Qed.

(** C1: for a digit string [d] of at most [2 * width] digits, the padded
    conversions ([hex_to_bytes8] with width 8, [hex_to_bytes32] with width
    32, [hex_to_address] with width 20) of ["0x" + d] return exactly
    [width] bytes: the bytes of [d], right-aligned after leading zero
    bytes.  [hex_to_address("0x1234")] is 18 zero bytes, then 0x12 0x34. *)
Theorem C1_padded_conversions (d : str) :
  hex_digits d = true ->
  (length d <= 2 * 8 ->
   exists bs, hex_to_bytes8 (py "0x" ++ d) = Ok bs /\ right_aligned 8 d bs)
  /\ (length d <= 2 * 32 ->
      exists bs, hex_to_bytes32 (py "0x" ++ d) = Ok bs /\ right_aligned 32 d bs)
  /\ (length d <= 2 * 20 ->
      exists bs, hex_to_address (py "0x" ++ d) = Ok bs /\ right_aligned 20 d bs)
  /\ hex_to_address (py "0x1234") = Ok (repeat x00 18 ++ [x12; x34]).
Proof.
  intros Hd.
  unfold hex_to_bytes8, hex_to_bytes32, hex_to_address.
  change (py "0x" ++ d) with ("0" :: "x" :: d).
  rewrite remove_hex_prefix_prefixed, !fmap_wrapper by reflexivity.
  split; [|split; [|split]]; try reflexivity; intros Hlen.
  - now apply (fromhex_rjust 8).
  - now apply (fromhex_rjust 32).
  - now apply (fromhex_rjust 20).
Qed.

Lemma C1_padded_conversions_witness :
  exists bs, hex_to_bytes8 (py "0x" ++ py "abc") = Ok bs
             /\ right_aligned 8 (py "abc") bs.
Proof.
  apply (C1_padded_conversions (py "abc") eq_refl). simpl. lia.
Defined.

(** C5: when the stripped input is a digit string of even length with
    more than [2 * width] digits, the padded conversions add no padding
    and decode the string as it is: the result is what [hex_to_bytes]
    returns, longer than [width] bytes, and it is not refused. *)
Theorem C5_oversize_not_padded (s : str) :
  hex_digits (remove_hex_prefix s) = true ->
  Nat.even (length (remove_hex_prefix s)) = true ->
  (2 * 8 < length (remove_hex_prefix s) ->
   Py.rjust (remove_hex_prefix s) 16 "0" = remove_hex_prefix s
   /\ exists bs, hex_to_bytes8 s = Ok bs /\ hex_to_bytes s = Ok bs
                 /\ length bs = length (remove_hex_prefix s) / 2
                 /\ 8 < length bs)
  /\ (2 * 32 < length (remove_hex_prefix s) ->
      Py.rjust (remove_hex_prefix s) 64 "0" = remove_hex_prefix s
      /\ exists bs, hex_to_bytes32 s = Ok bs /\ hex_to_bytes s = Ok bs
                    /\ length bs = length (remove_hex_prefix s) / 2
                    /\ 32 < length bs)
  /\ (2 * 20 < length (remove_hex_prefix s) ->
      Py.rjust (remove_hex_prefix s) 40 "0" = remove_hex_prefix s
      /\ exists bs, hex_to_address s = Ok bs /\ hex_to_bytes s = Ok bs
                    /\ length bs = length (remove_hex_prefix s) / 2
                    /\ 20 < length bs).
Proof.
  intros Hd He.
  unfold hex_to_bytes8, hex_to_bytes32, hex_to_address, hex_to_bytes.
  rewrite !fmap_wrapper by reflexivity.
  split; [|split]; intros Hlen.
  - now apply (fromhex_oversize 8).
  - now apply (fromhex_oversize 32).
  - now apply (fromhex_oversize 20).
Qed.

Lemma C5_oversize_not_padded_witness :
  Py.rjust (remove_hex_prefix (py "0x0102030405060708090a")) 16 "0"
  = remove_hex_prefix (py "0x0102030405060708090a")
  /\ exists bs, hex_to_bytes8 (py "0x0102030405060708090a") = Ok bs
                /\ hex_to_bytes (py "0x0102030405060708090a") = Ok bs
                /\ length bs
                   = length (remove_hex_prefix (py "0x0102030405060708090a")) / 2
                /\ 8 < length bs.
Proof.
  apply (C5_oversize_not_padded (py "0x0102030405060708090a") eq_refl eq_refl).
  simpl. lia.
Defined.

(** C6: for a digit string [s] of even length, without prefix,
    [hex_to_bytes("0x" + s)] is [hex_to_bytes(s)], and both decode. *)
Theorem C6_prefix_optional (s : str) :
  hex_digits s = true -> Nat.even (length s) = true ->
  hex_to_bytes (py "0x" ++ s) = hex_to_bytes s
  /\ exists bs, hex_to_bytes s = Ok bs.
Proof.
  intros Hd He. unfold hex_to_bytes.
  change (py "0x" ++ s) with ("0" :: "x" :: s).
  rewrite remove_hex_prefix_prefixed.
  rewrite (remove_hex_prefix_unprefixed s) by now apply hex_digits_unprefixed.
  split; [reflexivity|]. exists (digit_pairs s). now apply fromhex_digits.
Qed.

Lemma C6_prefix_optional_witness :
  hex_to_bytes (py "0x" ++ py "00ff") = hex_to_bytes (py "00ff")
  /\ exists bs, hex_to_bytes (py "00ff") = Ok bs.
Proof. exact (C6_prefix_optional (py "00ff") eq_refl eq_refl). Defined.

(** C4: [hex_to_hash], [hex_to_root] and [hex_to_bloom] strip the prefix
    and decode, with no padding and no check of the length: each returns
    what [bytes.fromhex] returns on the stripped string, and a decoded
    result has half as many bytes as the stripped string has digits.
    [hex_to_hash("0x1234")] is the two bytes 0x12 0x34. *)
Theorem C4_unpadded_conversions (s : str) :
  hex_to_hash s = Py.bytes_fromhex (remove_hex_prefix s)
  /\ hex_to_root s = Py.bytes_fromhex (remove_hex_prefix s)
  /\ hex_to_bloom s = Py.bytes_fromhex (remove_hex_prefix s)
  /\ match Py.bytes_fromhex (remove_hex_prefix s) with
     | Ok bs => length bs = digit_count (remove_hex_prefix s) / 2
     | Err e => e = DecodeError
     end
  /\ hex_to_hash (py "0x1234") = Ok [x12; x34].
Proof.
  unfold hex_to_hash, hex_to_root, hex_to_bloom.
  rewrite !fmap_wrapper by reflexivity.
  repeat split.
  destruct (Py.bytes_fromhex (remove_hex_prefix s)) as [bs|e] eqn:E.
  - apply fromhex_length in E. rewrite <- E, Nat.mul_comm.
    symmetry. now apply Nat.div_mul.
  - now apply fromhex_error in E.
Qed.

(** ** The conversions to integers *)

Lemma long_from_string_error (buffer : str) (e : error) :
  Py.long_from_string buffer = Err e -> e = ParseError.
Proof.
  unfold Py.long_from_string.
  destruct (Py.read_sign _) as [sign s1].
  destruct (Py.startswith _ _); [congruence|].
  destruct (Py.scan_digits _ _ _ _) as [[[v digits] rest]|]; [|congruence].
  destruct digits; [congruence|].
  destruct (Py.skip_space rest); congruence.
Qed.

Lemma Uint_error (n : Z) : Uint n <> Err ParseError.
Proof. unfold Uint. destruct (n <? 0)%Z; discriminate. Qed.

Lemma U256_error (n : Z) : U256 n <> Err ParseError.
Proof. unfold U256. destruct (_ || _); discriminate. Qed.

Lemma hex_to_uint_parse_error (s : str) :
  hex_to_uint s = Err ParseError
  <-> Py.int16 (remove_hex_prefix s) = Err ParseError.
Proof.
  unfold hex_to_uint.
  destruct (Py.int16 (remove_hex_prefix s)) as [n|e] eqn:E; simpl.
  - split; [intros H; now apply Uint_error in H|discriminate].
  - reflexivity.
Qed.

Lemma hex_to_u256_parse_error (s : str) :
  hex_to_u256 s = Err ParseError
  <-> Py.int16 (remove_hex_prefix s) = Err ParseError.
Proof.
  unfold hex_to_u256.
  destruct (Py.int16 (remove_hex_prefix s)) as [n|e] eqn:E; simpl.
  - split; [intros H; now apply U256_error in H|discriminate].
  - reflexivity.
Qed.

(** C9: [hex_to_u256] parses as [hex_to_uint] does.  Both fail with a
    [ParseError] on the same inputs; when the text parses to [n], the one
    returns [Uint(n)] and the other [U256(n)], so the value given to the
    256-bit constructor is the value [hex_to_uint] returns; a value of more
    than 256 bits is parsed, and refused by the constructor only. *)
Theorem C9_u256_parses_as_uint (s : str) :
  (hex_to_u256 s = Err ParseError <-> hex_to_uint s = Err ParseError)
  /\ match Py.int16 (remove_hex_prefix s) with
     | Ok n => hex_to_uint s = Uint n /\ hex_to_u256 s = U256 n
     | Err e => hex_to_uint s = Err ParseError
                /\ hex_to_u256 s = Err ParseError
     end
  /\ match hex_to_uint s with
     | Ok n => hex_to_u256 s = U256 n
     | Err e => True
     end
  /\ hex_to_uint (py "0x1" ++ repeat "0" 64) = Ok (2 ^ 256)%Z
  /\ hex_to_u256 (py "0x1" ++ repeat "0" 64) = Err RangeError.
Proof.
  split; [|split; [|split; [|split; reflexivity]]].
  - now rewrite hex_to_uint_parse_error, hex_to_u256_parse_error.
  - unfold hex_to_uint, hex_to_u256.
    destruct (Py.int16 (remove_hex_prefix s)) as [n|e] eqn:E; simpl.
    + now split.
    + apply long_from_string_error in E. now subst e.
  - unfold hex_to_uint, hex_to_u256.
    destruct (Py.int16 (remove_hex_prefix s)) as [n|e]; simpl; [|exact I].
    unfold Uint. destruct (n <? 0)%Z; [exact I|reflexivity].
Qed.

(** C10: [hex_to_bytes] takes the empty string and the bare prefix [0x]
    and returns no bytes for both, while the conversions to integers
    refuse a string that is empty once stripped. *)
Theorem C10_empty_input :
  hex_to_bytes (py "") = Ok []
  /\ hex_to_bytes (py "0x") = Ok []
  /\ hex_to_uint (py "") = Err ParseError
  /\ hex_to_uint (py "0x") = Err ParseError
  /\ hex_to_u256 (py "") = Err ParseError
  /\ hex_to_u256 (py "0x") = Err ParseError.
Proof. repeat split. Qed.

(** ** When [bytes.fromhex] fails *)

Lemma is_ok_fmap {A B : Type} (f : A -> B) (r : result A) :
  is_ok (fmap f r) = is_ok r.
Proof. now destruct r. Qed.

Lemma fields_bad_word (t w : str) :
  hex_digits w = false -> forallb field_ok (fields t w) = false.
Proof.
  revert w. induction t as [|c t IH]; intros w Hw; simpl.
  - unfold field_ok. now rewrite Hw, andb_false_r.
  - destruct (Py.Py_ISSPACE c); simpl.
    + unfold field_ok at 1. now rewrite Hw, andb_false_r.
    + apply IH. unfold hex_digits in *. now rewrite forallb_app, Hw.
Qed.

Lemma fields_decode (t w : str) :
  hex_digits w = true ->
  forallb field_ok (fields t w)
  = if Nat.even (length w) then is_ok (Py.bytes_fromhex t)
    else match t with
         | c :: t' => is_hex_digit c && is_ok (Py.bytes_fromhex t')
         | [] => false
         end.
Proof.
  revert w. induction t as [|c t IH]; intros w Hw.
  - simpl. unfold field_ok. rewrite Hw, !andb_true_r.
    now destruct (Nat.even (length w)).
  - cbn [fields]. destruct (Py.Py_ISSPACE c) eqn:Hs.
    + cbn [forallb]. rewrite (IH [] eq_refl). unfold field_ok.
      rewrite Hw, andb_true_r. simpl Py.bytes_fromhex. rewrite Hs.
      rewrite (space_not_hex_digit c Hs).
      now destruct (Nat.even (length w)).
    + destruct (is_hex_digit c) eqn:Hc.
      * rewrite IH by (unfold hex_digits in *; rewrite forallb_app, Hw; simpl;
                       now rewrite Hc).
        rewrite length_app, Nat.add_comm. cbn [length Nat.add].
        rewrite Nat.even_succ, <- Nat.negb_even.
        destruct (Nat.even (length w)); cbn [negb]; [|reflexivity].
        simpl Py.bytes_fromhex. rewrite Hs, digit_value_not_hex, Hc. cbn [negb].
        destruct t as [|c' t']; [reflexivity|].
        rewrite digit_value_not_hex.
        destruct (is_hex_digit c'); cbn [negb andb]; [|reflexivity].
        apply eq_sym, is_ok_fmap.
      * rewrite fields_bad_word
          by (unfold hex_digits in *; rewrite forallb_app; simpl;
              now rewrite Hc, andb_false_r).
        simpl Py.bytes_fromhex. rewrite Hs, digit_value_not_hex, Hc.
        now destruct (Nat.even (length w)).
Qed.

Lemma fields_no_space (t w : str) :
  (forall c, In c t -> Py.Py_ISSPACE c = false) ->
  fields t w = [w ++ t].
Proof.
  revert w. induction t as [|c t IH]; intros w H; simpl.
  - now rewrite app_nil_r.
  - rewrite (H c (or_introl eq_refl)).
    rewrite IH by (intros c' Hc'; apply H; now right).
    now rewrite <- app_assoc.
Qed.

Lemma forallb_false {A : Type} (f : A -> bool) (l : list A) :
  forallb f l = false <-> exists x, In x l /\ f x = false.
Proof.
  induction l as [|a l IH]; simpl.
  - split; [discriminate|now intros [x [[] _]]].
  - rewrite andb_false_iff, IH. split.
    + intros [H|[x [Hx H]]]; [now exists a; auto|exists x; auto].
    + intros [x [[->|Hx] H]]; [now left|right; now exists x].
Qed.

Lemma field_ok_false (w : str) :
  field_ok w = false <-> bad_field w.
Proof.
  unfold field_ok, bad_field, hex_digits.
  now rewrite andb_false_iff, forallb_false, <- Nat.negb_even, negb_true_iff.
Qed.

Lemma is_ok_false {A : Type} (r : result A) :
  is_ok r = false <-> exists e, r = Err e.
Proof.
  destruct r as [a|e]; simpl; split; try discriminate.
  - now intros [e [=]].
  - now exists e.
  - reflexivity.
Qed.

Lemma fromhex_fails (t : str) :
  Py.bytes_fromhex t = Err DecodeError
  <-> exists w, In w (fields t []) /\ bad_field w.
Proof.
  transitivity (forallb field_ok (fields t []) = false).
  - rewrite (fields_decode t [] eq_refl). cbn [length Nat.even].
    rewrite is_ok_false. split.
    + intros H. now exists DecodeError.
    + intros [e H]. now rewrite H, (fromhex_error _ _ H).
  - rewrite forallb_false. now setoid_rewrite field_ok_false.
Qed.

Lemma digit_count_hex_digits (t : str) :
  hex_digits t = true -> digit_count t = length t.
Proof.
  unfold hex_digits, digit_count. induction t as [|c t IH]; simpl; [easy|].
  intros H. apply andb_true_iff in H as [-> H]. simpl. now rewrite IH.
Qed.

Lemma bad_field_malformed (t : str) : bad_field t <-> malformed t.
Proof.
  unfold bad_field, malformed. destruct (hex_digits t) eqn:E.
  - now rewrite digit_count_hex_digits.
  - apply forallb_false in E. tauto.
Qed.

Lemma fromhex_fails_no_space (t : str) :
  (forall c, In c t -> Py.Py_ISSPACE c = false) ->
  Py.bytes_fromhex t = Err DecodeError <-> malformed t.
Proof.
  intros Hns. rewrite fromhex_fails, (fields_no_space _ [] Hns).
  rewrite <- bad_field_malformed. cbn [app]. split.
  - now intros [w [[<-|[]] Hw]].
  - intros Hw. exists t. split; [now left|exact Hw].
Qed.

Lemma fromhex_fails_malformed (t : str) :
  Py.bytes_fromhex t = Err DecodeError -> malformed t.
Proof.
  intros H. destruct (hex_digits t) eqn:E.
  - apply fromhex_fails_no_space; [|exact H].
    intros c Hc. apply hex_digit_not_space.
    unfold hex_digits in E. rewrite forallb_forall in E. now apply E.
  - right. now apply forallb_false.
Qed.

(** C2, as the code has it: [hex_to_bytes] fails, with a [DecodeError],
    exactly when one of the fields that ASCII whitespace cuts the stripped
    string into has an odd number of characters or a character that is
    not a hexadecimal digit, and on every other input it returns.  So it
    fails only if the stripped string has an odd number of digits or a
    character outside 0-9, a-f, A-F, and for a stripped string without
    whitespace it fails exactly then.  [hex_to_bytes("0xg1")] and
    [hex_to_bytes("0xabc")] fail. *)
Theorem C2_decode_error (s : str) :
  (hex_to_bytes s = Err DecodeError
   <-> exists w, In w (fields (remove_hex_prefix s) []) /\ bad_field w)
  /\ (hex_to_bytes s = Err DecodeError \/ exists bs, hex_to_bytes s = Ok bs)
  /\ (hex_to_bytes s = Err DecodeError -> malformed (remove_hex_prefix s))
  /\ ((forall c, In c (remove_hex_prefix s) -> Py.Py_ISSPACE c = false) ->
      (hex_to_bytes s = Err DecodeError <-> malformed (remove_hex_prefix s)))
  /\ hex_to_bytes (py "0xg1") = Err DecodeError
  /\ hex_to_bytes (py "0xabc") = Err DecodeError.
Proof.
  unfold hex_to_bytes. split; [apply fromhex_fails|].
  split; [|split; [|split; [|split; reflexivity]]].
  - destruct (Py.bytes_fromhex (remove_hex_prefix s)) as [bs|e] eqn:E.
    + right. now exists bs.
    + left. now rewrite (fromhex_error _ _ E).
  - apply fromhex_fails_malformed.
  - apply fromhex_fails_no_space.
Qed.

Lemma C2_decode_error_witness :
  hex_to_bytes (py "0x1g") = Err DecodeError
  <-> malformed (remove_hex_prefix (py "0x1g")).
Proof.
  destruct (C2_decode_error (py "0x1g")) as (_ & _ & _ & H & _).
  apply H. intros c [<-|[<-|[]]]; reflexivity.
Defined.

(** C2 fails on whitespace: a space is a character outside 0-9, a-f, A-F,
    and [bytes.fromhex] skips it between two bytes. *)
Lemma C2_decode_error_counterexample :
  ~ (forall s : str,
        hex_to_bytes s = Err DecodeError <-> malformed (remove_hex_prefix s)).
Proof.
  intros H. specialize (H (py "0x12 34")).
  assert (Hm : malformed (remove_hex_prefix (py "0x12 34"))).
  { right. exists " ". split; [|reflexivity]. simpl. tauto. }
  apply H in Hm. discriminate Hm.
Qed.

(** ** [int(_, 16)] *)

Lemma hex_digit_not_underscore (d : ascii) :
  is_hex_digit d = true -> Ascii.eqb d "_" = false.
Proof. each_char d; intros H; try reflexivity; discriminate H. Qed.

Lemma space_not_underscore (c : ascii) :
  Py.Py_ISSPACE c = true -> Ascii.eqb c "_" = false.
Proof. each_char c; intros H; try reflexivity; discriminate H. Qed.

Lemma hex_digit_not_sign (d : ascii) :
  is_hex_digit d = true -> Ascii.eqb d "+" = false /\ Ascii.eqb d "-" = false.
Proof. each_char d; intros H; try (split; reflexivity); discriminate H. Qed.

Lemma not_base_letter (c : ascii) :
  is_hex_digit c || Ascii.eqb c "_" || Py.Py_ISSPACE c = true ->
  Ascii.eqb c "x" || Ascii.eqb c "X" = false.
Proof. each_char c; intros H; try reflexivity; discriminate H. Qed.

Lemma hex_digit_ascii (d : ascii) :
  is_hex_digit d = true -> Py.is_ascii d = true.
Proof. each_char d; intros H; try reflexivity; discriminate H. Qed.

Lemma skip_space_split (s : str) :
  exists ws, s = ws ++ Py.skip_space s /\ forallb Py.Py_ISSPACE ws = true.
Proof.
  induction s as [|c s [ws [Hs Hws]]]; [now exists []|].
  simpl. destruct (Py.Py_ISSPACE c) eqn:Hc.
  - exists (c :: ws). simpl. rewrite Hc, Hws. split; [now f_equal|reflexivity].
  - now exists [].
Qed.

Lemma skip_space_nil (s : str) :
  Py.skip_space s = [] <-> forallb Py.Py_ISSPACE s = true.
Proof.
  induction s as [|c s IH]; simpl; [easy|].
  destruct (Py.Py_ISSPACE c); simpl; [exact IH|easy].
Qed.

Lemma read_sign_split (s : str) :
  exists sign, In sign [(1%Z, []); (1%Z, ["+"]); ((-1)%Z, ["-"])]
               /\ s = snd sign ++ snd (Py.read_sign s)
               /\ fst (Py.read_sign s) = fst sign.
Proof.
  destruct s as [|c s]; [exists (1%Z, []); simpl; auto|].
  unfold Py.read_sign.
  destruct (Ascii.eqb_spec c "+") as [->|_];
    [exists (1%Z, ["+"]); simpl; auto|].
  destruct (Ascii.eqb_spec c "-") as [->|_];
    [exists ((-1)%Z, ["-"]); simpl; auto 6|].
  exists (1%Z, []); simpl; auto.
Qed.

Lemma read_base_prefix_split (s : str) :
  exists prefix, In prefix [[]; py "0x"; py "0X"; py "0x_"; py "0X_"]
                 /\ s = prefix ++ Py.read_base_prefix s.
Proof.
  unfold Py.read_base_prefix.
  destruct s as [|c0 [|c1 s]]; try (exists []; simpl; now auto).
  destruct (Ascii.eqb_spec c0 "0") as [->|_]; [|exists []; simpl; now auto].
  destruct (Ascii.eqb_spec c1 "x") as [->|_]; simpl.
  - destruct s as [|c2 s]; [exists (py "0x"); simpl; now auto|].
    destruct (Ascii.eqb_spec c2 "_") as [->|_].
    + exists (py "0x_"); simpl; auto 8.
    + exists (py "0x"); simpl; auto.
  - destruct (Ascii.eqb_spec c1 "X") as [->|_]; [|exists []; simpl; now auto].
    destruct s as [|c2 s]; [exists (py "0X"); simpl; now auto|].
    destruct (Ascii.eqb_spec c2 "_") as [->|_].
    + exists (py "0X_"); simpl; auto 8.
    + exists (py "0X"); simpl; auto.
Qed.

Lemma scan_digits_sound (p : str) :
  forall prev acc n v m rest,
    Py.scan_digits p prev acc n = Some (v, m, rest) ->
    exists body,
      p = body ++ rest
      /\ v = hex_value_from acc (no_underscores body)
      /\ (body = [] -> m = n)
      /\ (if Ascii.eqb prev "_" then digit_run body
          else body = [] \/ digit_run body
               \/ exists b, body = "_" :: b /\ digit_run b).
Proof.
  induction p as [|c p IH]; intros prev acc n v m rest;
    cbn [Py.scan_digits].
  - destruct (Ascii.eqb prev "_") eqn:Hp; [discriminate|].
    intros [= <- <- <-]. exists []. auto.
  - destruct (Ascii.eqb_spec c "_") as [->|Hc].
    + destruct (Ascii.eqb prev "_") eqn:Hp; [discriminate|].
      intros H. apply IH in H as [b [-> [-> [_ Hb]]]]. simpl in Hb.
      exists ("_" :: b). repeat split; [discriminate|].
      right; right. now exists b.
    + rewrite digit_value_hex. destruct (is_hex_digit c) eqn:Hd.
      * intros H. apply IH in H as [b [-> [-> [_ Hb]]]].
        rewrite (hex_digit_not_underscore c Hd) in Hb.
        exists (c :: b). unfold no_underscores. simpl.
        rewrite (hex_digit_not_underscore c Hd). simpl.
        repeat split; [discriminate|].
        assert (Hrun : digit_run (c :: b)).
        { destruct Hb as [->|[Hb|[b' [-> Hb]]]].
          - now apply run_last.
          - now apply run_digit.
          - now apply run_underscore. }
        destruct (Ascii.eqb prev "_"); auto.
      * destruct (Ascii.eqb prev "_") eqn:Hp; [discriminate|].
        intros [= <- <- <-]. exists []. auto.
Qed.

Lemma long_from_string_sound (buffer : str) (n : Z) :
  Py.long_from_string buffer = Ok n -> int16_literal buffer n.
Proof.
  unfold Py.long_from_string.
  destruct (skip_space_split buffer) as [ws1 [Hbuf Hws1]].
  destruct (read_sign_split (Py.skip_space buffer)) as [sign [Hsign [Hs0 Hsg]]].
  destruct (Py.read_sign (Py.skip_space buffer)) as [sg s1].
  cbn [fst snd] in Hs0, Hsg.
  destruct (read_base_prefix_split s1) as [prefix [Hpre Hs1]].
  destruct (Py.startswith (Py.read_base_prefix s1) ["_"]) eqn:Hsw;
    [discriminate|].
  destruct (Py.scan_digits _ _ _ _) as [[[v m] rest]|] eqn:Esc;
    [|discriminate].
  destruct m as [|m]; [discriminate|].
  destruct (Py.skip_space rest) eqn:Erest; [|discriminate].
  intros [= <-].
  apply scan_digits_sound in Esc as [body [Hs2 [Hv [Hm Hshape]]]].
  change (Ascii.eqb "000" "_") with false in Hshape. cbv iota in Hshape.
  exists ws1, sign, prefix, body, rest.
  split.
  { rewrite <- Hs2, <- Hs1. etransitivity; [exact Hbuf|]. f_equal. exact Hs0. }
  split; [exact Hws1|]. split; [exact Hsign|]. split; [exact Hpre|].
  split; [|split].
  - destruct Hshape as [->|[Hrun|[b [-> _]]]].
    + now specialize (Hm eq_refl).
    + exact Hrun.
    + rewrite Hs2 in Hsw. discriminate Hsw.
  - now apply skip_space_nil.
  - now rewrite Hv, Hsg.
Qed.

Lemma scan_digits_stop (ws : str) (prev : ascii) (acc : N) (n : nat) :
  forallb Py.Py_ISSPACE ws = true -> Ascii.eqb prev "_" = false ->
  Py.scan_digits ws prev acc n = Some (acc, n, ws).
Proof.
  intros Hws Hp. destruct ws as [|c ws]; cbn [Py.scan_digits].
  - now rewrite Hp.
  - cbn [forallb] in Hws. apply andb_true_iff in Hws as [Hc _].
    rewrite (space_not_underscore c Hc), digit_value_hex.
    now rewrite (space_not_hex_digit c Hc), Hp.
Qed.

Lemma scan_digits_complete (body ws : str) :
  digit_run body -> forallb Py.Py_ISSPACE ws = true ->
  forall prev acc n, exists m,
    Py.scan_digits (body ++ ws) prev acc n
    = Some (hex_value_from acc (no_underscores body), S m, ws).
Proof.
  intros Hrun Hws.
  induction Hrun as [d Hd|d r Hd _ IH|d r Hd _ IH]; intros prev acc n;
    cbn [app Py.scan_digits]; unfold no_underscores; cbn [filter];
    rewrite (hex_digit_not_underscore d Hd), digit_value_hex, Hd;
    cbn [negb].
  - exists n.
    now rewrite scan_digits_stop by (auto using hex_digit_not_underscore).
  - apply IH.
  - change (Ascii.eqb "_" "_") with true. cbn [negb]. apply IH.
Qed.

Lemma digit_run_head (body ws : str) :
  digit_run body -> forallb Py.Py_ISSPACE ws = true ->
  exists d rest,
    body ++ ws = d :: rest /\ is_hex_digit d = true
    /\ match rest with
       | [] => True
       | c :: _ => is_hex_digit c || Ascii.eqb c "_" || Py.Py_ISSPACE c = true
       end.
Proof.
  intros Hrun Hws. destruct Hrun as [d Hd|d r Hd Hr|d r Hd Hr].
  - exists d, ws. split; [reflexivity|split; [exact Hd|]].
    destruct ws as [|c ws]; [exact I|]. cbn [forallb] in Hws.
    apply andb_true_iff in Hws as [-> _]. now rewrite orb_true_r.
  - exists d, (r ++ ws). split; [reflexivity|split; [exact Hd|]].
    destruct Hr as [d' Hd'|d' r' Hd' _|d' r' Hd' _]; cbn [app];
      now rewrite Hd'.
  - exists d, ("_" :: r ++ ws). split; [reflexivity|split; [exact Hd|]].
    reflexivity.
Qed.

Lemma read_base_prefix_literal (prefix z rest : str) (c : ascii) :
  In prefix [[]; py "0x"; py "0X"; py "0x_"; py "0X_"] ->
  z = c :: rest -> is_hex_digit c = true ->
  match rest with
  | [] => True
  | c' :: _ => is_hex_digit c' || Ascii.eqb c' "_" || Py.Py_ISSPACE c' = true
  end ->
  Py.read_base_prefix (prefix ++ z) = z
  /\ exists c0 r0, prefix ++ z = c0 :: r0 /\ is_hex_digit c0 = true.
Proof.
  intros Hpre -> Hc Hrest.
  pose proof (hex_digit_not_underscore c Hc) as Hu.
  destruct Hpre as [<-|[<-|[<-|[<-|[<-|[]]]]]]; cbn [py list_ascii_of_string app].
  - split; [|now exists c, rest].
    unfold Py.read_base_prefix. destruct rest as [|c' rest]; [reflexivity|].
    rewrite (not_base_letter c' Hrest). now rewrite andb_false_r.
  - split; [|now exists "0", ("x" :: c :: rest)].
    unfold Py.read_base_prefix. now rewrite Hu.
  - split; [|now exists "0", ("X" :: c :: rest)].
    unfold Py.read_base_prefix. now rewrite Hu.
  - split; [|now exists "0", ("x" :: "_" :: c :: rest)]. reflexivity.
  - split; [|now exists "0", ("X" :: "_" :: c :: rest)]. reflexivity.
Qed.

Lemma skip_space_app (ws x : str) :
  forallb Py.Py_ISSPACE ws = true ->
  Py.skip_space (ws ++ x) = Py.skip_space x.
Proof.
  induction ws as [|c ws IH]; [reflexivity|]. cbn [forallb app Py.skip_space].
  intros H. apply andb_true_iff in H as [-> H]. now apply IH.
Qed.

Lemma long_from_string_complete (buffer : str) (n : Z) :
  int16_literal buffer n -> Py.long_from_string buffer = Ok n.
Proof.
  intros (ws1 & sign & prefix & body & ws2
          & -> & Hws1 & Hsign & Hpre & Hrun & Hws2 & ->).
  destruct (digit_run_head body ws2 Hrun Hws2) as (d & rest & Hz & Hd & Hrest).
  destruct (read_base_prefix_literal prefix _ rest d Hpre Hz Hd Hrest)
    as [Hrbp (c0 & r0 & Hy & Hc0)].
  destruct (scan_digits_complete body ws2 Hrun Hws2 "000" 0%N 0) as [m Hscan].
  unfold Py.long_from_string. rewrite skip_space_app by assumption.
  assert (Hrs : Py.read_sign (Py.skip_space (snd sign ++ prefix ++ body ++ ws2))
                = (fst sign, prefix ++ body ++ ws2)).
  { destruct Hsign as [<-|[<-|[<-|[]]]]; cbn [fst snd app]; try reflexivity.
    rewrite Hy. cbn [Py.skip_space]. rewrite (hex_digit_not_space c0 Hc0).
    unfold Py.read_sign.
    now destruct (hex_digit_not_sign c0 Hc0) as [-> ->]. }
  rewrite Hrs, Hrbp.
  assert (Hsw : Py.startswith (body ++ ws2) ["_"] = false).
  { rewrite Hz. cbn [Py.startswith].
    now rewrite (hex_digit_not_underscore d Hd). }
  rewrite Hsw, Hscan. apply skip_space_nil in Hws2. now rewrite Hws2.
Qed.

Lemma int16_literal_iff (u : str) (n : Z) :
  Py.int16 u = Ok n <-> int16_literal (Py.transform_decimal_and_space u) n.
Proof.
  split; [apply long_from_string_sound|apply long_from_string_complete].
Qed.

Lemma int16_parse_error (u : str) :
  Py.int16 u = Err ParseError
  <-> ~ exists n, int16_literal (Py.transform_decimal_and_space u) n.
Proof.
  split.
  - intros H [n Hn]. apply int16_literal_iff in Hn. congruence.
  - intros H. destruct (Py.int16 u) as [n|e] eqn:E.
    + exfalso. apply H. exists n. now apply int16_literal_iff.
    + now rewrite (long_from_string_error _ _ E).
Qed.

Lemma transform_hex_digits (d : str) :
  hex_digits d = true -> Py.transform_decimal_and_space d = d.
Proof.
  intros Hd. unfold Py.transform_decimal_and_space.
  replace (forallb Py.is_ascii d) with true; [reflexivity|].
  symmetry. apply forallb_forall. intros c Hc. apply hex_digit_ascii.
  unfold hex_digits in Hd. rewrite forallb_forall in Hd. now apply Hd.
Qed.

Lemma no_underscores_hex_digits (d : str) :
  hex_digits d = true -> no_underscores d = d.
Proof.
  unfold hex_digits, no_underscores. induction d as [|c d IH]; [reflexivity|].
  cbn [forallb filter]. intros H. apply andb_true_iff in H as [Hc H].
  now rewrite (hex_digit_not_underscore c Hc), IH.
Qed.

Lemma digit_run_hex_digits (d : str) :
  d <> [] -> hex_digits d = true -> digit_run d.
Proof.
  unfold hex_digits. induction d as [|c d IH]; [easy|]. intros _.
  cbn [forallb]. intros H. apply andb_true_iff in H as [Hc H].
  destruct d as [|c' d]; [now apply run_last|].
  apply run_digit; [exact Hc|]. now apply IH.
Qed.

Lemma int16_hex_digits (d : str) :
  d <> [] -> hex_digits d = true -> Py.int16 d = Ok (Z.of_N (hex_value d)).
Proof.
  intros Hne Hd. apply int16_literal_iff. rewrite transform_hex_digits by easy.
  exists [], (1%Z, []), [], d, []. cbn [fst snd app]. rewrite app_nil_r.
  repeat split; [now left|now left|now apply digit_run_hex_digits|].
  unfold run_value. rewrite no_underscores_hex_digits by easy.
  now destruct (Z.of_N (hex_value d)).
Qed.

(** C3, as the code has it: [hex_to_uint] fails with a [ParseError]
    exactly when the stripped string is not a literal that [int(_, 16)]
    reads (whitespace, a sign, [0x] or [0X], hexadecimal digits with
    single underscores between them, whitespace; Unicode whitespace
    counts as whitespace).  So it fails only if the stripped string is
    empty or has a character outside 0-9, a-f, A-F; it fails on an empty
    stripped string, and on a stripped string of hexadecimal digits only
    it returns the number they write in base 16, whatever its size.
    [hex_to_uint("0xff")] is 255. *)
Theorem C3_parse_error (s : str) :
  (hex_to_uint s = Err ParseError
   <-> ~ exists n,
         int16_literal (Py.transform_decimal_and_space (remove_hex_prefix s)) n)
  /\ (forall n,
        int16_literal (Py.transform_decimal_and_space (remove_hex_prefix s)) n ->
        hex_to_uint s = Uint n)
  /\ (hex_to_uint s = Err ParseError -> not_digits (remove_hex_prefix s))
  /\ (remove_hex_prefix s = [] -> hex_to_uint s = Err ParseError)
  /\ (remove_hex_prefix s <> [] -> hex_digits (remove_hex_prefix s) = true ->
      hex_to_uint s = Ok (Z.of_N (hex_value (remove_hex_prefix s))))
  /\ hex_to_uint (py "0xff") = Ok 255%Z
  /\ hex_to_uint (py "0x1" ++ repeat "0" 64) = Ok (2 ^ 256)%Z.
Proof.
  assert (Hdigits : remove_hex_prefix s <> [] ->
                    hex_digits (remove_hex_prefix s) = true ->
                    hex_to_uint s
                    = Ok (Z.of_N (hex_value (remove_hex_prefix s)))).
  { intros Hne Hd. unfold hex_to_uint. rewrite int16_hex_digits by easy.
    cbn [bind]. unfold Uint.
    now destruct (Z.ltb_spec (Z.of_N (hex_value (remove_hex_prefix s))) 0);
      [lia|]. }
  split; [|split; [|split; [|split; [|split; [|split; reflexivity]]]]].
  - rewrite hex_to_uint_parse_error. apply int16_parse_error.
  - intros n Hn. apply int16_literal_iff in Hn.
    unfold hex_to_uint. now rewrite Hn.
  - intros H. unfold not_digits.
    destruct (remove_hex_prefix s) as [|c t] eqn:Et; [now left|]. right.
    destruct (hex_digits (c :: t)) eqn:Ed; [|now apply forallb_false].
    rewrite Hdigits in H; [discriminate H|discriminate|reflexivity].
  - intros H. unfold hex_to_uint. now rewrite H.
  - exact Hdigits.
Qed.

Lemma C3_parse_error_witness :
  hex_to_uint (py "0xff")
  = Ok (Z.of_N (hex_value (remove_hex_prefix (py "0xff")))).
Proof.
  destruct (C3_parse_error (py "0xff")) as (_ & _ & _ & _ & H & _).
  apply H; [discriminate|reflexivity].
Defined.

(** C3 fails on a second prefix: [x] is not a hexadecimal digit, and
    [int(_, 16)] reads the base prefix. *)
Lemma C3_parse_error_counterexample :
  ~ (forall s : str,
        hex_to_uint s = Err ParseError <-> not_digits (remove_hex_prefix s)).
Proof.
  intros H. specialize (H (py "0x0xff")).
  assert (Hn : not_digits (remove_hex_prefix (py "0x0xff"))).
  { right. exists "x". split; [|reflexivity]. simpl. tauto. }
  apply H in Hn. discriminate Hn.
Qed.

(** ** Further properties: the prefix and concatenation *)

(** X1: the prefix is read off the first two characters: appending to a
    string of two characters or more changes neither whether it has the
    prefix nor what is stripped from it. *)
Theorem strip_app (a b : str) :
  2 <= length a ->
  has_hex_prefix (a ++ b) = has_hex_prefix a
  /\ remove_hex_prefix (a ++ b) = remove_hex_prefix a ++ b.
Proof.
  destruct a as [|c [|c' a]]; cbn [length]; try lia. intros _.
  unfold remove_hex_prefix, has_hex_prefix.
  cbn [app py list_ascii_of_string Py.startswith].
  destruct (Ascii.eqb c "0" && (Ascii.eqb c' "x" && true)); now split.
Qed.

Lemma strip_app_witness :
  has_hex_prefix (py "0x12" ++ py "34") = has_hex_prefix (py "0x12")
  /\ remove_hex_prefix (py "0x12" ++ py "34")
     = remove_hex_prefix (py "0x12") ++ py "34".
Proof. apply (strip_app (py "0x12") (py "34")). simpl. lia. Defined.

Lemma fmap_fmap {A B C : Type} (f : A -> B) (g : B -> C) (r : result A) :
  fmap g (fmap f r) = fmap (fun a => g (f a)) r.
Proof. now destruct r. Qed.

Lemma fmap_app_nil (r : result Bytes) : fmap (app []) r = r.
Proof. now destruct r. Qed.

Lemma fromhex_app (t b : str) (x : Bytes) :
  Py.bytes_fromhex t = Ok x ->
  Py.bytes_fromhex (t ++ b) = fmap (app x) (Py.bytes_fromhex b).
Proof.
  revert x. induction t as [|c|c c' r IHr IHc'] using str_pair_ind; intros x.
  - intros [= <-]. cbn [app]. now rewrite fmap_app_nil.
  - cbn [app Py.bytes_fromhex]. destruct (Py.Py_ISSPACE c).
    + intros [= <-]. now rewrite fmap_app_nil.
    + destruct (16 <=? _)%N; discriminate.
  - change ((c :: c' :: r) ++ b) with (c :: (c' :: r) ++ b).
    cbn [Py.bytes_fromhex]. destruct (Py.Py_ISSPACE c); [apply IHc'|].
    destruct (16 <=? Py._PyLong_DigitValue c)%N; [discriminate|].
    cbn [app].
    destruct (16 <=? Py._PyLong_DigitValue c')%N; [discriminate|].
    destruct (Py.bytes_fromhex r) as [x'|] eqn:E; [|discriminate].
    intros [= <-]. rewrite (IHr x' eq_refl).
    now destruct (Py.bytes_fromhex b).
Qed.

Lemma fromhex_unprefixed (b : str) (y : Bytes) :
  Py.bytes_fromhex b = Ok y -> has_hex_prefix b = false.
Proof.
  intros H. destruct (has_hex_prefix b) eqn:E; [|reflexivity].
  apply has_hex_prefix_cons in E as [t ->]. discriminate H.
Qed.

(** X2: decoding goes through concatenation: when [s] decodes to [x] and
    the string [b], which has no prefix, decodes to [y], then [s + b]
    decodes to [x + y]. *)
Theorem hex_to_bytes_app (s b : str) (x y : Bytes) :
  hex_to_bytes s = Ok x ->
  has_hex_prefix b = false -> hex_to_bytes b = Ok y ->
  hex_to_bytes (s ++ b) = Ok (x ++ y).
Proof.
  unfold hex_to_bytes. intros Hs Hb Hy.
  rewrite (remove_hex_prefix_unprefixed b Hb) in Hy.
  assert (Hstrip : remove_hex_prefix (s ++ b) = remove_hex_prefix s ++ b).
  { destruct s as [|c [|c' s]].
    - cbn [app]. now rewrite (remove_hex_prefix_unprefixed b Hb).
    - assert (Hshort : has_hex_prefix [c] = false).
      { unfold has_hex_prefix. cbn. apply andb_false_r. }
      rewrite (remove_hex_prefix_unprefixed [c] Hshort) in Hs |- *.
      assert (Hc : Py.Py_ISSPACE c = true).
      { cbn [Py.bytes_fromhex] in Hs. destruct (Py.Py_ISSPACE c); [reflexivity|].
        destruct (16 <=? _)%N; discriminate. }
      apply remove_hex_prefix_unprefixed.
      unfold has_hex_prefix. cbn [app py list_ascii_of_string Py.startswith].
      now destruct (Ascii.eqb_spec c "0") as [->|_]; [discriminate Hc|].
    - apply strip_app. cbn [length]. lia. }
  now rewrite Hstrip, (fromhex_app _ b x Hs), Hy.
Qed.

Lemma hex_to_bytes_app_witness :
  hex_to_bytes (py "0x12 34" ++ py "ab") = Ok ([x12; x34] ++ [xab]).
Proof.
  apply (hex_to_bytes_app (py "0x12 34") (py "ab")); reflexivity.
Defined.

(** ** Further properties: padding *)

Lemma fromhex_zeros (k : nat) (u : str) :
  Py.bytes_fromhex (repeat "0" (2 * k) ++ u)
  = fmap (app (repeat x00 k)) (Py.bytes_fromhex u).
Proof.
  induction k as [|k IH]; [cbn [Nat.mul repeat app]; now rewrite fmap_app_nil|].
  replace (2 * S k) with (S (S (2 * k))) by lia.
  remember (2 * k) as m eqn:Hm.
  change (Py.bytes_fromhex (repeat "0" (S (S m)) ++ u))
    with (fmap (cons x00) (Py.bytes_fromhex (repeat "0" m ++ u))).
  rewrite IH. now destruct (Py.bytes_fromhex u).
Qed.

Lemma rjust_rjust (t : str) (n m : nat) (c : ascii) :
  length t <= n -> n <= m ->
  Py.rjust t m c = repeat c (m - n) ++ Py.rjust t n c.
Proof.
  intros Ht Hn. unfold Py.rjust. rewrite app_assoc, <- repeat_app.
  do 2 f_equal. lia.
Qed.

Lemma rjust_zeros (t : str) (k n : nat) :
  k + length t <= n ->
  Py.rjust (repeat "0" k ++ t) n "0" = Py.rjust t n "0".
Proof.
  intros H. unfold Py.rjust.
  rewrite length_app, repeat_length, app_assoc, <- repeat_app.
  do 2 f_equal. lia.
Qed.

(** X3: zero digits in front of a string that still fits the width do not
    change what a padded conversion returns, whatever the string is. *)
Theorem padded_leading_zeros (t : str) (k : nat) :
  (k + length t <= 16 ->
   hex_to_bytes8 (py "0x" ++ repeat "0" k ++ t) = hex_to_bytes8 (py "0x" ++ t))
  /\ (k + length t <= 64 ->
      hex_to_bytes32 (py "0x" ++ repeat "0" k ++ t)
      = hex_to_bytes32 (py "0x" ++ t))
  /\ (k + length t <= 40 ->
      hex_to_address (py "0x" ++ repeat "0" k ++ t)
      = hex_to_address (py "0x" ++ t)).
Proof.
  unfold hex_to_bytes8, hex_to_bytes32, hex_to_address.
  change (py "0x" ++ repeat "0" k ++ t) with ("0" :: "x" :: repeat "0" k ++ t).
  change (py "0x" ++ t) with ("0" :: "x" :: t).
  rewrite !remove_hex_prefix_prefixed.
  split; [|split]; intros H; now rewrite rjust_zeros.
Qed.

Lemma padded_leading_zeros_witness :
  hex_to_address (py "0x" ++ repeat "0" 3 ++ py "abc")
  = hex_to_address (py "0x" ++ py "abc").
Proof. apply (padded_leading_zeros (py "abc") 3). simpl. lia. Defined.

(** X4: the padded conversions agree across the widths: on an input that
    fits the smaller width, the wider conversion returns what the narrower
    one returns after the missing zero bytes, and fails when it fails. *)
Theorem padded_widths_agree (s : str) :
  (length (remove_hex_prefix s) <= 16 ->
   hex_to_address s = fmap (app (repeat x00 12)) (hex_to_bytes8 s)
   /\ hex_to_bytes32 s = fmap (app (repeat x00 24)) (hex_to_bytes8 s))
  /\ (length (remove_hex_prefix s) <= 40 ->
      hex_to_bytes32 s = fmap (app (repeat x00 12)) (hex_to_address s)).
Proof.
  unfold hex_to_bytes8, hex_to_bytes32, hex_to_address.
  rewrite ?(fmap_wrapper Bytes8), ?(fmap_wrapper Bytes32),
    ?(fmap_wrapper Address) by reflexivity.
  split; [intros H; split|intros H].
  - rewrite (rjust_rjust _ 16 40) by lia. apply (fromhex_zeros 12).
  - rewrite (rjust_rjust _ 16 64) by lia. apply (fromhex_zeros 24).
  - rewrite (rjust_rjust _ 40 64) by lia. apply (fromhex_zeros 12).
Qed.

Lemma padded_widths_agree_witness :
  hex_to_bytes32 (py "0x1234")
  = fmap (app (repeat x00 12)) (hex_to_address (py "0x1234")).
Proof. apply (padded_widths_agree (py "0x1234")). simpl. lia. Defined.

(** X5: on an input whose stripped string is [2 * width] characters long
    or longer, a padded conversion is [hex_to_bytes]: it returns the same
    bytes and fails on the same inputs. *)
Theorem padded_full_width (s : str) :
  (16 <= length (remove_hex_prefix s) -> hex_to_bytes8 s = hex_to_bytes s)
  /\ (64 <= length (remove_hex_prefix s) -> hex_to_bytes32 s = hex_to_bytes s)
  /\ (40 <= length (remove_hex_prefix s) -> hex_to_address s = hex_to_bytes s).
Proof.
  unfold hex_to_bytes8, hex_to_bytes32, hex_to_address, hex_to_bytes.
  rewrite !fmap_wrapper by reflexivity.
  split; [|split]; intros H; now rewrite rjust_long.
Qed.

Lemma padded_full_width_witness :
  hex_to_bytes8 (py "0x0102030405060708") = hex_to_bytes (py "0x0102030405060708").
Proof. apply (padded_full_width (py "0x0102030405060708")). simpl. lia. Defined.

Lemma rjust_length (t : str) (n : nat) (c : ascii) :
  length (Py.rjust t n c) = Nat.max n (length t).
Proof. unfold Py.rjust. rewrite length_app, repeat_length. lia. Qed.

Lemma rjust_In (t : str) (n : nat) (c x : ascii) :
  In x (Py.rjust t n c) -> x = c \/ In x t.
Proof.
  unfold Py.rjust. intros H. apply in_app_or in H as [H|H]; [|now right].
  left. now apply repeat_spec in H.
Qed.

Lemma hex_digits_rjust (t : str) (n : nat) :
  hex_digits t = true -> hex_digits (Py.rjust t n "0") = true.
Proof. apply hex_digits_zeros. Qed.

Lemma padded_outcome_rjust (width : nat) (t : str) :
  (forall c, In c t -> Py.Py_ISSPACE c = false) ->
  padded_outcome width t (Py.bytes_fromhex (Py.rjust t (2 * width) "0")).
Proof.
  intros Hns.
  assert (Hns' : forall c, In c (Py.rjust t (2 * width) "0") ->
                           Py.Py_ISSPACE c = false).
  { intros c Hc. apply rjust_In in Hc as [->|Hc]; [reflexivity|now apply Hns]. }
  assert (Hbad : hex_digits t = false ->
                 malformed (Py.rjust t (2 * width) "0")).
  { intros E. apply forallb_false in E as [c [Hc E]]. right. exists c.
    split; [|exact E]. unfold Py.rjust. apply in_or_app. now right. }
  assert (Hfail : Py.bytes_fromhex (Py.rjust t (2 * width) "0") = Err DecodeError
                  <-> hex_digits t = false
                      \/ (2 * width < length t /\ Nat.odd (length t) = true)).
  { rewrite (fromhex_fails_no_space _ Hns'). split.
    - intros Hm. destruct (hex_digits t) eqn:E; [right|now left].
      destruct Hm as [Hodd|[c [Hc Hx]]].
      + rewrite digit_count_hex_digits in Hodd by now apply hex_digits_rjust.
        rewrite rjust_length in Hodd.
        destruct (Nat.le_gt_cases (length t) (2 * width)) as [Hle|Hgt].
        * rewrite Nat.max_l in Hodd by exact Hle.
          rewrite <- Nat.negb_even in Hodd.
          replace (Nat.even (2 * width)) with true in Hodd; [discriminate|].
          symmetry. apply Nat.even_spec. now exists width.
        * rewrite Nat.max_r in Hodd by lia. now split.
      + pose proof (hex_digits_rjust t (2 * width) E) as Hu.
        unfold hex_digits in Hu. rewrite forallb_forall in Hu.
        rewrite (Hu c Hc) in Hx. discriminate.
    - intros [E|[Hgt Hodd]]; [now apply Hbad|].
      destruct (hex_digits t) eqn:E; [|now apply Hbad].
      rewrite rjust_long by lia. left.
      now rewrite digit_count_hex_digits. }
  split; [exact Hfail|].
  destruct (Py.bytes_fromhex (Py.rjust t (2 * width) "0")) as [bs|e] eqn:E.
  - destruct (hex_digits t) eqn:Ed.
    + apply fromhex_length in E.
      rewrite digit_count_hex_digits in E by now apply hex_digits_rjust.
      now rewrite rjust_length in E.
    + assert (H : @Ok Bytes bs = Err DecodeError) by (apply Hfail; now left).
      discriminate H.
  - now apply fromhex_error in E.
Qed.

(** X6: on a stripped string without whitespace, a padded conversion fails
    exactly when the string has a character that is not a hexadecimal
    digit, or is longer than [2 * width] and of odd length: a short string
    of odd length, which [hex_to_bytes] refuses, is padded and decoded.
    What is returned has [width] bytes when the string fits, and half as
    many bytes as the string has digits otherwise. *)
Theorem padded_conversions_outcome (s : str) :
  (forall c, In c (remove_hex_prefix s) -> Py.Py_ISSPACE c = false) ->
  padded_outcome 8 (remove_hex_prefix s) (hex_to_bytes8 s)
  /\ padded_outcome 32 (remove_hex_prefix s) (hex_to_bytes32 s)
  /\ padded_outcome 20 (remove_hex_prefix s) (hex_to_address s).
Proof.
  intros Hns. unfold hex_to_bytes8, hex_to_bytes32, hex_to_address.
  rewrite !fmap_wrapper by reflexivity.
  split; [|split].
  - now apply (padded_outcome_rjust 8).
  - now apply (padded_outcome_rjust 32).
  - now apply (padded_outcome_rjust 20).
Qed.

Lemma padded_conversions_outcome_witness :
  padded_outcome 8 (remove_hex_prefix (py "0xabc")) (hex_to_bytes8 (py "0xabc")).
Proof.
  refine (proj1 (padded_conversions_outcome (py "0xabc") _)).
  intros c [<-|[<-|[<-|[]]]]; reflexivity.
Defined.

Lemma fromhex_spaces (ws : str) :
  forallb Py.Py_ISSPACE ws = true -> Py.bytes_fromhex ws = Ok [].
Proof.
  induction ws as [|c ws IH]; [reflexivity|]. cbn [forallb Py.bytes_fromhex].
  intros H. apply andb_true_iff in H as [-> H]. now apply IH.
Qed.

Lemma space_ascii (c : ascii) :
  Py.Py_ISSPACE c = true -> Py.is_ascii c = true.
Proof. each_char c; intros H; try reflexivity; discriminate H. Qed.

Lemma transform_ascii (u : str) :
  forallb Py.is_ascii u = true -> Py.transform_decimal_and_space u = u.
Proof. unfold Py.transform_decimal_and_space. now intros ->. Qed.

Lemma int16_spaces (ws : str) :
  forallb Py.Py_ISSPACE ws = true -> Py.int16 ws = Err ParseError.
Proof.
  intros H. unfold Py.int16. rewrite transform_ascii.
  - unfold Py.long_from_string. apply skip_space_nil in H. now rewrite H.
  - apply forallb_forall. intros c Hc. apply space_ascii.
    rewrite forallb_forall in H. now apply H.
Qed.

(** X7: when the stripped string is whitespace only, the unpadded
    conversions to bytes return no bytes and the conversions to integers
    fail; a padded conversion returns no bytes either when the whitespace
    is [2 * width] characters long or longer, so its result can be
    shorter than [width]. *)
Theorem whitespace_only (s : str) :
  forallb Py.Py_ISSPACE (remove_hex_prefix s) = true ->
  hex_to_bytes s = Ok []
  /\ hex_to_hash s = Ok [] /\ hex_to_root s = Ok [] /\ hex_to_bloom s = Ok []
  /\ hex_to_uint s = Err ParseError /\ hex_to_u256 s = Err ParseError
  /\ (16 <= length (remove_hex_prefix s) -> hex_to_bytes8 s = Ok [])
  /\ (64 <= length (remove_hex_prefix s) -> hex_to_bytes32 s = Ok [])
  /\ (40 <= length (remove_hex_prefix s) -> hex_to_address s = Ok []).
Proof.
  intros H.
  unfold hex_to_bytes, hex_to_hash, hex_to_root, hex_to_bloom, hex_to_uint,
    hex_to_u256, hex_to_bytes8, hex_to_bytes32, hex_to_address.
  rewrite !fmap_wrapper by reflexivity.
  rewrite (fromhex_spaces _ H), (int16_spaces _ H).
  repeat (split; [reflexivity|]).
  split; [|split]; intros Hlen; rewrite rjust_long by lia;
    now apply fromhex_spaces.
Qed.

Lemma whitespace_only_witness :
  hex_to_bytes (py "0x  ") = Ok [] /\ hex_to_uint (py "0x  ") = Err ParseError.
Proof.
  destruct (whitespace_only (py "0x  ") eq_refl) as (H1 & _ & _ & _ & H2 & _).
  now split.
Defined.

(** ** Further properties: round trips with [bytes.hex()] *)

Lemma fromhex_hex_byte (b : byte) (rest : str) :
  Py.bytes_fromhex
    (hex_char (Byte.to_N b / 16) :: hex_char (Byte.to_N b mod 16) :: rest)
  = fmap (cons b) (Py.bytes_fromhex rest).
Proof. destruct b; reflexivity. Qed.

Lemma hex_digits_hex_byte (b : byte) :
  is_hex_digit (hex_char (Byte.to_N b / 16))
  && is_hex_digit (hex_char (Byte.to_N b mod 16)) = true.
Proof. destruct b; reflexivity. Qed.

Lemma fromhex_bytes_hex (bs : Bytes) :
  Py.bytes_fromhex (bytes_hex bs) = Ok bs.
Proof.
  induction bs as [|b bs IH]; [reflexivity|].
  cbn [bytes_hex flat_map app]. fold (bytes_hex bs).
  now rewrite fromhex_hex_byte, IH.
Qed.

Lemma hex_digits_bytes_hex (bs : Bytes) : hex_digits (bytes_hex bs) = true.
Proof.
  induction bs as [|b bs IH]; [reflexivity|].
  cbn [bytes_hex flat_map app]. fold (bytes_hex bs).
  unfold hex_digits in *. cbn [forallb].
  now rewrite andb_assoc, hex_digits_hex_byte, IH.
Qed.

Lemma bytes_hex_length (bs : Bytes) : length (bytes_hex bs) = 2 * length bs.
Proof.
  induction bs as [|b bs IH]; [reflexivity|].
  cbn [bytes_hex flat_map app length]. fold (bytes_hex bs). lia.
Qed.

(** X8: decoding undoes [bytes.hex()]: every byte sequence is returned by
    [hex_to_bytes], [hex_to_hash], [hex_to_root] and [hex_to_bloom] from
    its hexadecimal text, with the prefix or without. *)
Theorem decode_bytes_hex (bs : Bytes) :
  hex_to_bytes (bytes_hex bs) = Ok bs
  /\ hex_to_bytes (py "0x" ++ bytes_hex bs) = Ok bs
  /\ hex_to_hash (py "0x" ++ bytes_hex bs) = Ok bs
  /\ hex_to_root (py "0x" ++ bytes_hex bs) = Ok bs
  /\ hex_to_bloom (py "0x" ++ bytes_hex bs) = Ok bs.
Proof.
  unfold hex_to_bytes, hex_to_hash, hex_to_root, hex_to_bloom.
  change (py "0x" ++ bytes_hex bs) with ("0" :: "x" :: bytes_hex bs).
  rewrite remove_hex_prefix_prefixed, !fmap_wrapper by reflexivity.
  rewrite remove_hex_prefix_unprefixed
    by apply hex_digits_unprefixed, hex_digits_bytes_hex.
  rewrite fromhex_bytes_hex. now repeat split.
Qed.

Lemma padded_bytes_hex (width : nat) (bs : Bytes) :
  length bs <= width ->
  Py.bytes_fromhex (Py.rjust (bytes_hex bs) (2 * width) "0")
  = Ok (repeat x00 (width - length bs) ++ bs).
Proof.
  intros H. unfold Py.rjust. rewrite bytes_hex_length.
  replace (2 * width - 2 * length bs) with (2 * (width - length bs)) by lia.
  now rewrite fromhex_zeros, fromhex_bytes_hex.
Qed.

(** X9: a padded conversion undoes [bytes.hex()] on a byte sequence of
    its width, and returns a shorter byte sequence after the missing zero
    bytes. *)
Theorem padded_decode_bytes_hex (bs : Bytes) :
  (length bs <= 8 ->
   hex_to_bytes8 (py "0x" ++ bytes_hex bs)
   = Ok (repeat x00 (8 - length bs) ++ bs))
  /\ (length bs <= 32 ->
      hex_to_bytes32 (py "0x" ++ bytes_hex bs)
      = Ok (repeat x00 (32 - length bs) ++ bs))
  /\ (length bs <= 20 ->
      hex_to_address (py "0x" ++ bytes_hex bs)
      = Ok (repeat x00 (20 - length bs) ++ bs)).
Proof.
  unfold hex_to_bytes8, hex_to_bytes32, hex_to_address.
  change (py "0x" ++ bytes_hex bs) with ("0" :: "x" :: bytes_hex bs).
  rewrite remove_hex_prefix_prefixed, !fmap_wrapper by reflexivity.
  split; [|split]; intros H.
  - now apply (padded_bytes_hex 8).
  - now apply (padded_bytes_hex 32).
  - now apply (padded_bytes_hex 20).
Qed.

Lemma padded_decode_bytes_hex_witness :
  hex_to_bytes8 (py "0x" ++ bytes_hex [x01; xff])
  = Ok (repeat x00 (8 - length [x01; xff]) ++ [x01; xff]).
Proof.
  refine (proj1 (padded_decode_bytes_hex [x01; xff]) _). simpl. lia.
Defined.

Lemma hex_char_digit_value (c : ascii) :
  is_hex_digit c = true -> hex_char (Py._PyLong_DigitValue c) = to_lower c.
Proof. each_char c; intros H; try reflexivity; discriminate H. Qed.

Lemma nibbles_of_byte (top bot : N) :
  (top < 16)%N -> (bot < 16)%N ->
  (Byte.to_N (Py.byte_of_nibbles top bot) / 16 = top
   /\ Byte.to_N (Py.byte_of_nibbles top bot) mod 16 = bot)%N.
Proof.
  intros Ht Hb. rewrite byte_of_nibbles_value by assumption. split.
  - symmetry. apply (N.div_unique _ _ top bot); [exact Hb|reflexivity].
  - symmetry. apply (N.mod_unique _ _ top bot); [exact Hb|reflexivity].
Qed.

Lemma bytes_hex_digit_pairs (d : str) :
  hex_digits d = true -> Nat.even (length d) = true ->
  bytes_hex (digit_pairs d) = lower d.
Proof.
  induction d as [|c|c c' r IHr _] using str_pair_ind; intros Hd He.
  - reflexivity.
  - discriminate He.
  - unfold hex_digits in Hd. cbn [forallb] in Hd.
    apply andb_true_iff in Hd as [Hc Hd].
    apply andb_true_iff in Hd as [Hc' Hd].
    cbn [digit_pairs bytes_hex flat_map app lower map].
    fold (bytes_hex (digit_pairs r)). fold (lower r).
    destruct (nibbles_of_byte (Py._PyLong_DigitValue c)
                (Py._PyLong_DigitValue c')) as [-> ->];
      try now apply digit_value_bound.
    rewrite !hex_char_digit_value by assumption.
    now rewrite (IHr Hd He).
Qed.

(** X10: [bytes.hex()] undoes decoding up to the case of the letters: a
    digit string of even length decodes to bytes whose hexadecimal text is
    the string in lower case.  So two such strings that decode to the
    same bytes differ in case only. *)
Theorem bytes_hex_decode (d : str) :
  hex_digits d = true -> Nat.even (length d) = true ->
  exists bs, hex_to_bytes (py "0x" ++ d) = Ok bs /\ bytes_hex bs = lower d.
Proof.
  intros Hd He. exists (digit_pairs d). unfold hex_to_bytes.
  change (py "0x" ++ d) with ("0" :: "x" :: d).
  rewrite remove_hex_prefix_prefixed.
  split; [now apply fromhex_digits|now apply bytes_hex_digit_pairs].
Qed.

Lemma bytes_hex_decode_witness :
  exists bs, hex_to_bytes (py "0x" ++ py "12aB") = Ok bs
             /\ bytes_hex bs = lower (py "12aB").
Proof. exact (bytes_hex_decode (py "12aB") eq_refl eq_refl). Defined.

(** ** Further properties: the case of the digits *)

Lemma lower_space (c : ascii) : Py.Py_ISSPACE (to_lower c) = Py.Py_ISSPACE c.
Proof. each_char c; reflexivity. Qed.

Lemma lower_digit_value (c : ascii) :
  Py._PyLong_DigitValue (to_lower c) = Py._PyLong_DigitValue c.
Proof. each_char c; reflexivity. Qed.

Lemma fromhex_lower (t : str) :
  Py.bytes_fromhex (lower t) = Py.bytes_fromhex t.
Proof.
  unfold lower.
  induction t as [|c|c c' r IHr IHc'] using str_pair_ind.
  - reflexivity.
  - cbn [map Py.bytes_fromhex]. now rewrite lower_space, lower_digit_value.
  - cbn [map] in IHc' |- *.
    change (Py.bytes_fromhex (to_lower c :: to_lower c' :: map to_lower r))
      with (if Py.Py_ISSPACE (to_lower c)
            then Py.bytes_fromhex (to_lower c' :: map to_lower r)
            else if (16 <=? Py._PyLong_DigitValue (to_lower c))%N
                 then Err DecodeError
                 else if (16 <=? Py._PyLong_DigitValue (to_lower c'))%N
                      then Err DecodeError
                      else fmap (cons (Py.byte_of_nibbles
                                         (Py._PyLong_DigitValue (to_lower c))
                                         (Py._PyLong_DigitValue (to_lower c'))))
                             (Py.bytes_fromhex (map to_lower r))).
    now rewrite !lower_space, !lower_digit_value, IHr, IHc'.
Qed.

Lemma rjust_lower (t : str) (n : nat) :
  Py.rjust (lower t) n "0" = lower (Py.rjust t n "0").
Proof.
  unfold Py.rjust, lower. now rewrite map_app, map_repeat, length_map.
Qed.

(** X11: the conversions to bytes do not tell the case of the digits:
    after the prefix, a string and the string in lower case are decoded
    alike, to the same bytes or the same failure. *)
Theorem bytes_case_insensitive (t : str) :
  hex_to_bytes (py "0x" ++ lower t) = hex_to_bytes (py "0x" ++ t)
  /\ hex_to_hash (py "0x" ++ lower t) = hex_to_hash (py "0x" ++ t)
  /\ hex_to_root (py "0x" ++ lower t) = hex_to_root (py "0x" ++ t)
  /\ hex_to_bloom (py "0x" ++ lower t) = hex_to_bloom (py "0x" ++ t)
  /\ hex_to_bytes8 (py "0x" ++ lower t) = hex_to_bytes8 (py "0x" ++ t)
  /\ hex_to_bytes32 (py "0x" ++ lower t) = hex_to_bytes32 (py "0x" ++ t)
  /\ hex_to_address (py "0x" ++ lower t) = hex_to_address (py "0x" ++ t).
Proof.
  unfold hex_to_bytes, hex_to_hash, hex_to_root, hex_to_bloom,
    hex_to_bytes8, hex_to_bytes32, hex_to_address.
  change (py "0x" ++ lower t) with ("0" :: "x" :: lower t).
  change (py "0x" ++ t) with ("0" :: "x" :: t).
  rewrite !remove_hex_prefix_prefixed, !rjust_lower, !fromhex_lower.
  now repeat split.
Qed.

Lemma lower_underscore (c : ascii) :
  Ascii.eqb (to_lower c) "_" = Ascii.eqb c "_".
Proof. each_char c; reflexivity. Qed.

Lemma lower_sign (c : ascii) :
  Ascii.eqb (to_lower c) "+" = Ascii.eqb c "+"
  /\ Ascii.eqb (to_lower c) "-" = Ascii.eqb c "-".
Proof. each_char c; split; reflexivity. Qed.

Lemma lower_base_prefix (c0 c1 : ascii) :
  Ascii.eqb (to_lower c0) "0"
  && (Ascii.eqb (to_lower c1) "x" || Ascii.eqb (to_lower c1) "X")
  = Ascii.eqb c0 "0" && (Ascii.eqb c1 "x" || Ascii.eqb c1 "X").
Proof.
  assert (H0 : Ascii.eqb (to_lower c0) "0" = Ascii.eqb c0 "0")
    by (each_char c0; reflexivity).
  assert (H1 : Ascii.eqb (to_lower c1) "x" || Ascii.eqb (to_lower c1) "X"
               = Ascii.eqb c1 "x" || Ascii.eqb c1 "X")
    by (each_char c1; reflexivity).
  now rewrite H0, H1.
Qed.

Lemma lower_is_ascii (c : ascii) : Py.is_ascii (to_lower c) = Py.is_ascii c.
Proof. each_char c; reflexivity. Qed.

Lemma lower_transform_step (c : ascii) :
  if (N_of_ascii c <? 127)%N
  then (N_of_ascii (to_lower c) <? 127)%N = true
  else to_lower c = c
       /\ (Py.Py_UNICODE_ISSPACE c = false -> Py.Py_UNICODE_TODECIMAL c = None).
Proof. each_char c; cbv; auto. Qed.

Lemma skip_space_lower (s : str) :
  Py.skip_space (lower s) = lower (Py.skip_space s).
Proof.
  unfold lower. induction s as [|c s IH]; [reflexivity|].
  cbn [map Py.skip_space]. rewrite lower_space.
  now destruct (Py.Py_ISSPACE c).
Qed.

Lemma read_sign_lower (s : str) :
  Py.read_sign (lower s)
  = (fst (Py.read_sign s), lower (snd (Py.read_sign s))).
Proof.
  destruct s as [|c s]; [reflexivity|]. unfold Py.read_sign, lower.
  cbn [map]. destruct (lower_sign c) as [-> ->].
  now destruct (Ascii.eqb c "+"), (Ascii.eqb c "-").
Qed.

Lemma read_base_prefix_lower (s : str) :
  Py.read_base_prefix (lower s) = lower (Py.read_base_prefix s).
Proof.
  destruct s as [|c0 [|c1 s]]; try reflexivity.
  unfold Py.read_base_prefix, lower. cbn [map]. rewrite lower_base_prefix.
  destruct (Ascii.eqb c0 "0" && (Ascii.eqb c1 "x" || Ascii.eqb c1 "X"));
    [|reflexivity].
  destruct s as [|c2 s]; [reflexivity|]. cbn [map]. rewrite lower_underscore.
  now destruct (Ascii.eqb c2 "_").
Qed.

Lemma scan_digits_lower (p : str) :
  forall prev acc n,
    Py.scan_digits (lower p) (to_lower prev) acc n
    = match Py.scan_digits p prev acc n with
      | Some (v, m, rest) => Some (v, m, lower rest)
      | None => None
      end.
Proof.
  unfold lower. induction p as [|c p IH]; intros prev acc n;
    cbn [map Py.scan_digits]; rewrite !lower_underscore.
  - now destruct (Ascii.eqb prev "_").
  - rewrite lower_digit_value, !IH.
    now destruct (Ascii.eqb c "_"), (Ascii.eqb prev "_"),
      (Py._PyLong_DigitValue c <? 16)%N.
Qed.

Lemma long_from_string_lower (buffer : str) :
  Py.long_from_string (lower buffer) = Py.long_from_string buffer.
Proof.
  unfold Py.long_from_string.
  rewrite skip_space_lower, read_sign_lower.
  destruct (Py.read_sign (Py.skip_space buffer)) as [sign s1]. cbn [fst snd].
  rewrite read_base_prefix_lower.
  replace (Py.startswith (lower (Py.read_base_prefix s1)) ["_"])
    with (Py.startswith (Py.read_base_prefix s1) ["_"]).
  2:{ destruct (Py.read_base_prefix s1) as [|c r]; [reflexivity|].
      unfold lower. cbn [map Py.startswith]. now rewrite lower_underscore. }
  destruct (Py.startswith (Py.read_base_prefix s1) ["_"]); [reflexivity|].
  change "000" with (to_lower "000") at 1. rewrite scan_digits_lower.
  destruct (Py.scan_digits _ _ _ _) as [[[v m] rest]|]; [|reflexivity].
  rewrite skip_space_lower.
  now destruct m, (Py.skip_space rest).
Qed.

Lemma transform_lower (u : str) :
  Py.transform_decimal_and_space (lower u)
  = lower (Py.transform_decimal_and_space u).
Proof.
  unfold Py.transform_decimal_and_space.
  replace (forallb Py.is_ascii (lower u)) with (forallb Py.is_ascii u).
  2:{ unfold lower. induction u as [|c u IH]; [reflexivity|].
      cbn [map forallb]. now rewrite lower_is_ascii, IH. }
  destruct (forallb Py.is_ascii u); [reflexivity|].
  unfold lower. induction u as [|c u IH]; [reflexivity|].
  cbn [map Py.transform_loop]. pose proof (lower_transform_step c) as Hc.
  destruct (N_of_ascii c <? 127)%N eqn:E.
  - rewrite Hc. cbn [map]. now rewrite IH.
  - destruct Hc as [-> Hdec]. rewrite E.
    destruct (Py.Py_UNICODE_ISSPACE c).
    + cbn [map]. now rewrite IH.
    + now rewrite Hdec.
Qed.

Lemma int16_lower (u : str) : Py.int16 (lower u) = Py.int16 u.
Proof.
  unfold Py.int16. now rewrite transform_lower, long_from_string_lower.
Qed.

(** X12: the conversions to integers do not tell the case of the letters
    either: after the prefix, a string and the string in lower case are
    parsed alike, to the same number or the same failure. *)
Theorem int_case_insensitive (t : str) :
  hex_to_uint (py "0x" ++ lower t) = hex_to_uint (py "0x" ++ t)
  /\ hex_to_u256 (py "0x" ++ lower t) = hex_to_u256 (py "0x" ++ t).
Proof.
  unfold hex_to_uint, hex_to_u256.
  change (py "0x" ++ lower t) with ("0" :: "x" :: lower t).
  change (py "0x" ++ t) with ("0" :: "x" :: t).
  rewrite !remove_hex_prefix_prefixed, int16_lower. now split.
Qed.

(** ** Further properties: numbers and bytes *)

Lemma Uint_of_N (v : N) : Uint (Z.of_N v) = Ok (Z.of_N v).
Proof. unfold Uint. now destruct (Z.ltb_spec (Z.of_N v) 0); [lia|]. Qed.

Lemma int16_prefixed_digits (prefix d : str) :
  In prefix [[]; py "0x"; py "0X"; py "0x_"; py "0X_"] ->
  d <> [] -> hex_digits d = true ->
  Py.int16 (prefix ++ d) = Ok (Z.of_N (hex_value d)).
Proof.
  intros Hpre Hne Hd. apply int16_literal_iff. rewrite transform_ascii.
  - exists [], (1%Z, []), prefix, d, []. cbn [fst snd app]. rewrite app_nil_r.
    repeat split; [now left|exact Hpre|now apply digit_run_hex_digits|].
    unfold run_value. rewrite no_underscores_hex_digits by easy.
    now destruct (Z.of_N (hex_value d)).
  - rewrite forallb_app. apply andb_true_iff. split.
    + destruct Hpre as [<-|[<-|[<-|[<-|[<-|[]]]]]]; reflexivity.
    + apply forallb_forall. intros c Hc. apply hex_digit_ascii.
      unfold hex_digits in Hd. rewrite forallb_forall in Hd. now apply Hd.
Qed.

Lemma hex_to_uint_digits (d : str) :
  d <> [] -> hex_digits d = true ->
  hex_to_uint ("0" :: "x" :: d) = Ok (Z.of_N (hex_value d)).
Proof.
  intros Hne Hd. unfold hex_to_uint. rewrite remove_hex_prefix_prefixed.
  rewrite (int16_hex_digits d Hne Hd).
  apply Uint_of_N.
Qed.

(** X13: the conversions to bytes and to integers read the same number:
    for a digit string that is not empty and fits the width, [hex_to_uint]
    returns the number that the bytes of the padded conversion write, most
    significant byte first; so it does for [hex_to_bytes] on a digit
    string of even length. *)
Theorem uint_of_decoded_bytes (d : str) :
  hex_digits d = true -> d <> [] ->
  (length d <= 16 ->
   exists bs, hex_to_bytes8 (py "0x" ++ d) = Ok bs
              /\ hex_to_uint (py "0x" ++ d) = Ok (Z.of_N (be_value bs)))
  /\ (length d <= 64 ->
      exists bs, hex_to_bytes32 (py "0x" ++ d) = Ok bs
                 /\ hex_to_uint (py "0x" ++ d) = Ok (Z.of_N (be_value bs)))
  /\ (length d <= 40 ->
      exists bs, hex_to_address (py "0x" ++ d) = Ok bs
                 /\ hex_to_uint (py "0x" ++ d) = Ok (Z.of_N (be_value bs)))
  /\ (Nat.even (length d) = true ->
      exists bs, hex_to_bytes (py "0x" ++ d) = Ok bs
                 /\ hex_to_uint (py "0x" ++ d) = Ok (Z.of_N (be_value bs))).
Proof.
  intros Hd Hne.
  change (py "0x" ++ d) with ("0" :: "x" :: d).
  rewrite (hex_to_uint_digits d Hne Hd).
  unfold hex_to_bytes8, hex_to_bytes32, hex_to_address, hex_to_bytes.
  rewrite remove_hex_prefix_prefixed, !fmap_wrapper by reflexivity.
  split; [|split; [|split]]; intros H.
  - destruct (fromhex_rjust 8 d Hd H) as [bs [Hbs [_ [Hv _]]]].
    exists bs. now rewrite Hv.
  - destruct (fromhex_rjust 32 d Hd H) as [bs [Hbs [_ [Hv _]]]].
    exists bs. now rewrite Hv.
  - destruct (fromhex_rjust 20 d Hd H) as [bs [Hbs [_ [Hv _]]]].
    exists bs. now rewrite Hv.
  - exists (digit_pairs d). split; [now apply fromhex_digits|].
    now rewrite be_value_digit_pairs.
Qed.

Lemma uint_of_decoded_bytes_witness :
  exists bs, hex_to_address (py "0x" ++ py "abc") = Ok bs
             /\ hex_to_uint (py "0x" ++ py "abc") = Ok (Z.of_N (be_value bs)).
Proof.
  refine (proj1 (proj2 (proj2
            (uint_of_decoded_bytes (py "abc") eq_refl _))) _);
    [discriminate|simpl; lia].
Defined.

(** X14: after the prefix is stripped, the conversions to integers read
    one more base prefix, [0x] or [0X], and the conversions to bytes read
    none: with a digit string [d] that is not empty, [hex_to_uint] returns
    the same number for ["0X" + d], ["0x0x" + d] and ["0x" + d], while
    [hex_to_bytes] fails on the first two. *)
Theorem second_base_prefix (d : str) :
  hex_digits d = true -> d <> [] ->
  hex_to_uint (py "0X" ++ d) = hex_to_uint (py "0x" ++ d)
  /\ hex_to_uint (py "0x0x" ++ d) = hex_to_uint (py "0x" ++ d)
  /\ hex_to_uint (py "0x" ++ d) = Ok (Z.of_N (hex_value d))
  /\ hex_to_bytes (py "0X" ++ d) = Err DecodeError
  /\ hex_to_bytes (py "0x0x" ++ d) = Err DecodeError.
Proof.
  intros Hd Hne.
  change (py "0x" ++ d) with ("0" :: "x" :: d).
  rewrite (hex_to_uint_digits d Hne Hd).
  split; [|split; [|split; [reflexivity|split; reflexivity]]].
  - unfold hex_to_uint.
    rewrite (remove_hex_prefix_unprefixed (py "0X" ++ d)) by reflexivity.
    rewrite (int16_prefixed_digits (py "0X") d) by (auto; simpl; tauto).
    apply Uint_of_N.
  - unfold hex_to_uint.
    change (py "0x0x" ++ d) with ("0" :: "x" :: py "0x" ++ d).
    rewrite remove_hex_prefix_prefixed.
    rewrite (int16_prefixed_digits (py "0x") d) by (auto; simpl; tauto).
    apply Uint_of_N.
Qed.

Lemma second_base_prefix_witness :
  hex_to_uint (py "0X" ++ py "ff") = hex_to_uint (py "0x" ++ py "ff")
  /\ hex_to_bytes (py "0X" ++ py "ff") = Err DecodeError.
Proof.
  destruct (second_base_prefix (py "ff") eq_refl) as (H1 & _ & _ & H2 & _);
    [discriminate|now split].
Defined.

Lemma hex_value_from_app (acc : N) (b : str) :
  hex_value_from acc b
  = (acc * 16 ^ N.of_nat (length b) + hex_value b)%N.
Proof.
  unfold hex_value, hex_value_from. revert acc.
  induction b as [|c b IH]; intros acc.
  - cbn [fold_left length N.of_nat]. rewrite N.pow_0_r. lia.
  - cbn [fold_left length]. rewrite IH, (IH (16 * 0 + _)%N).
    rewrite Nat2N.inj_succ, N.pow_succ_r'. lia.
Qed.

Lemma hex_value_app (a b : str) :
  hex_value (a ++ b)
  = (hex_value a * 16 ^ N.of_nat (length b) + hex_value b)%N.
Proof.
  unfold hex_value at 1. rewrite fold_left_app.
  apply (hex_value_from_app (hex_value a) b).
Qed.

Lemma hex_digits_app (a b : str) :
  hex_digits a = true -> hex_digits b = true -> hex_digits (a ++ b) = true.
Proof. unfold hex_digits. intros Ha Hb. now rewrite forallb_app, Ha, Hb. Qed.

(** X15: [hex_to_uint] reads digits by position: for two digit strings
    that are not empty, the number of ["0x" + a + b] is the number of
    ["0x" + a] times 16 to the number of digits of [b], plus the number
    of ["0x" + b]. *)
Theorem uint_concat (a b : str) :
  hex_digits a = true -> hex_digits b = true -> a <> [] -> b <> [] ->
  exists va vb,
    hex_to_uint (py "0x" ++ a) = Ok va
    /\ hex_to_uint (py "0x" ++ b) = Ok vb
    /\ hex_to_uint (py "0x" ++ a ++ b)
       = Ok (va * 16 ^ Z.of_nat (length b) + vb)%Z.
Proof.
  intros Ha Hb Hna Hnb.
  exists (Z.of_N (hex_value a)), (Z.of_N (hex_value b)).
  change (py "0x" ++ a) with ("0" :: "x" :: a).
  change (py "0x" ++ b) with ("0" :: "x" :: b).
  change (py "0x" ++ a ++ b) with ("0" :: "x" :: a ++ b).
  rewrite !hex_to_uint_digits; auto using hex_digits_app.
  - repeat split. f_equal. rewrite hex_value_app.
    rewrite N2Z.inj_add, N2Z.inj_mul, N2Z.inj_pow, nat_N_Z. reflexivity.
  - destruct a; [easy|discriminate].
Qed.

Lemma uint_concat_witness :
  exists va vb,
    hex_to_uint (py "0x" ++ py "ab") = Ok va
    /\ hex_to_uint (py "0x" ++ py "cd") = Ok vb
    /\ hex_to_uint (py "0x" ++ py "ab" ++ py "cd")
       = Ok (va * 16 ^ Z.of_nat (length (py "cd")) + vb)%Z.
Proof.
  apply (uint_concat (py "ab") (py "cd")); (reflexivity || discriminate).
Defined.

(** X16: zero digits in front of a digit string that is not empty do not
    change the number [hex_to_uint] returns. *)
Theorem uint_leading_zeros (d : str) (k : nat) :
  hex_digits d = true -> d <> [] ->
  hex_to_uint (py "0x" ++ repeat "0" k ++ d) = hex_to_uint (py "0x" ++ d).
Proof.
  intros Hd Hne.
  change (py "0x" ++ repeat "0" k ++ d) with ("0" :: "x" :: repeat "0" k ++ d).
  change (py "0x" ++ d) with ("0" :: "x" :: d).
  rewrite !hex_to_uint_digits; auto using hex_digits_zeros.
  - now rewrite hex_value_zeros.
  - destruct d; [easy|]. now destruct k.
Qed.

Lemma uint_leading_zeros_witness :
  hex_to_uint (py "0x" ++ repeat "0" 5 ++ py "ff")
  = hex_to_uint (py "0x" ++ py "ff").
Proof. apply (uint_leading_zeros (py "ff") 5); [reflexivity|discriminate]. Defined.

Lemma hex_value_bound (d : str) :
  hex_digits d = true -> (hex_value d < 16 ^ N.of_nat (length d))%N.
Proof.
  unfold hex_digits. induction d as [|c d IH] using rev_ind; intros Hd.
  - cbn. lia.
  - rewrite forallb_app in Hd. apply andb_true_iff in Hd as [Hd Hc].
    cbn [forallb] in Hc. rewrite andb_true_r in Hc.
    rewrite hex_value_app, length_app. cbn [length].
    replace (N.of_nat (length d + 1)) with (N.succ (N.of_nat (length d))) by lia.
    rewrite N.pow_succ_r', N.pow_1_r.
    specialize (IH Hd). pose proof (digit_value_bound c Hc) as Hb.
    unfold hex_value at 2. cbn [fold_left]. lia.
Qed.

(** X17: with [U256] as the specification describes it, [hex_to_u256]
    returns what [hex_to_uint] returns for every digit string of 1 to 64
    digits: such a number is below 2 to the 256. *)
Theorem u256_up_to_64_digits (d : str) :
  hex_digits d = true -> d <> [] -> length d <= 64 ->
  hex_to_u256 (py "0x" ++ d) = hex_to_uint (py "0x" ++ d)
  /\ hex_to_uint (py "0x" ++ d) = Ok (Z.of_N (hex_value d))
  /\ (0 <= Z.of_N (hex_value d) < 2 ^ 256)%Z.
Proof.
  intros Hd Hne Hlen.
  change (py "0x" ++ d) with ("0" :: "x" :: d).
  rewrite (hex_to_uint_digits d Hne Hd).
  assert (Hv : (0 <= Z.of_N (hex_value d) < 2 ^ 256)%Z).
  { pose proof (hex_value_bound d Hd) as Hb.
    assert (Hp : (16 ^ N.of_nat (length d) <= 16 ^ 64)%N)
      by (apply N.pow_le_mono_r; lia).
    change (2 ^ 256)%Z with (Z.of_N (16 ^ 64)). lia. }
  split; [|now split].
  unfold hex_to_u256. rewrite remove_hex_prefix_prefixed.
  rewrite (int16_hex_digits d Hne Hd).
  cbn [bind app]. unfold U256.
  destruct (Z.ltb_spec (Z.of_N (hex_value d)) 0); [lia|].
  now destruct (Z.leb_spec (2 ^ 256) (Z.of_N (hex_value d))); [lia|].
Qed.

Lemma u256_up_to_64_digits_witness :
  hex_to_u256 (py "0x" ++ py "ff") = hex_to_uint (py "0x" ++ py "ff").
Proof.
  refine (proj1 (u256_up_to_64_digits (py "ff") eq_refl _ _));
    [discriminate|simpl; lia].
Defined.

Lemma digit_run_app_underscore (a b : str) :
  digit_run a -> digit_run b -> digit_run (a ++ "_" :: b).
Proof.
  intros Ha Hb. induction Ha as [d Hd|d r Hd _ IH|d r Hd _ IH]; cbn [app].
  - now apply run_underscore.
  - now apply run_digit.
  - now apply run_underscore.
Qed.

Lemma no_underscores_app (a b : str) :
  no_underscores (a ++ "_" :: b) = no_underscores a ++ no_underscores b.
Proof. unfold no_underscores. now rewrite filter_app. Qed.

Lemma hex_digits_ascii (d : str) :
  hex_digits d = true -> forallb Py.is_ascii d = true.
Proof.
  unfold hex_digits. rewrite !forallb_forall. intros H c Hc.
  now apply hex_digit_ascii, H.
Qed.

(** X18: [hex_to_uint] reads a plus sign before the digits and one
    underscore between two digits as if they were not there, and
    [hex_to_bytes] refuses both: for digit strings [a] and [b] that are
    not empty, ["0x+" + a] gives the number of ["0x" + a], and
    ["0x" + a + "_" + b] the number of ["0x" + a + b]. *)
Theorem uint_sign_and_underscore (a b : str) :
  hex_digits a = true -> hex_digits b = true -> a <> [] -> b <> [] ->
  hex_to_uint (py "0x+" ++ a) = hex_to_uint (py "0x" ++ a)
  /\ hex_to_uint (py "0x" ++ a ++ py "_" ++ b) = hex_to_uint (py "0x" ++ a ++ b)
  /\ hex_to_bytes (py "0x+" ++ a) = Err DecodeError
  /\ hex_to_bytes (py "0x" ++ a ++ py "_" ++ b) = Err DecodeError.
Proof.
  intros Ha Hb Hna Hnb.
  assert (Hab : a ++ b <> []) by (destruct a; [easy|discriminate]).
  change (py "0x+" ++ a) with ("0" :: "x" :: "+" :: a).
  change (py "0x" ++ a) with ("0" :: "x" :: a).
  change (py "0x" ++ a ++ py "_" ++ b) with ("0" :: "x" :: a ++ "_" :: b).
  change (py "0x" ++ a ++ b) with ("0" :: "x" :: a ++ b).
  rewrite (hex_to_uint_digits a), (hex_to_uint_digits (a ++ b))
    by auto using hex_digits_app.
  unfold hex_to_uint, hex_to_bytes. rewrite !remove_hex_prefix_prefixed.
  split; [|split; [|split]].
  - replace (Py.int16 ("+" :: a)) with (@Ok Z (Z.of_N (hex_value a)));
      [apply Uint_of_N|].
    symmetry. apply int16_literal_iff. rewrite transform_ascii.
    + exists [], (1%Z, ["+"]), [], a, []. cbn [fst snd app]. rewrite app_nil_r.
      repeat split; [simpl; tauto|now left|now apply digit_run_hex_digits|].
      unfold run_value. rewrite no_underscores_hex_digits by easy.
      now destruct (Z.of_N (hex_value a)).
    + cbn [forallb]. now rewrite hex_digits_ascii.
  - replace (Py.int16 (a ++ "_" :: b))
      with (@Ok Z (Z.of_N (hex_value (a ++ b)))); [apply Uint_of_N|].
    symmetry. apply int16_literal_iff. rewrite transform_ascii.
    + exists [], (1%Z, []), [], (a ++ "_" :: b), [].
      cbn [fst snd app]. rewrite app_nil_r.
      repeat split; [now left|now left| |].
      * apply digit_run_app_underscore; now apply digit_run_hex_digits.
      * unfold run_value.
        rewrite no_underscores_app, !no_underscores_hex_digits by easy.
        now destruct (Z.of_N (hex_value (a ++ b))).
    + rewrite forallb_app. cbn [forallb].
      now rewrite !hex_digits_ascii.
  - reflexivity.
  - apply fromhex_fails_no_space.
    + intros c Hc. apply in_app_or in Hc as [Hc|[<-|Hc]];
        [|reflexivity|]; apply hex_digit_not_space;
        [unfold hex_digits in Ha; rewrite forallb_forall in Ha; now apply Ha
        |unfold hex_digits in Hb; rewrite forallb_forall in Hb; now apply Hb].
    + right. exists "_". split; [|reflexivity].
      apply in_or_app. right. now left.
Qed.

Lemma uint_sign_and_underscore_witness :
  hex_to_uint (py "0x" ++ py "ab" ++ py "_" ++ py "cd")
  = hex_to_uint (py "0x" ++ py "ab" ++ py "cd").
Proof.
  refine (proj1 (proj2
            (uint_sign_and_underscore (py "ab") (py "cd") eq_refl eq_refl _ _)));
    discriminate.
Defined.

Lemma digit_count_le (t : str) : digit_count t <= length t.
Proof. apply filter_length_le. Qed.

Lemma remove_hex_prefix_length (s : str) :
  length (remove_hex_prefix s) <= length s.
Proof.
  unfold remove_hex_prefix, Py.slice_from. destruct (has_hex_prefix s); [|lia].
  rewrite length_skipn. lia.
Qed.

(** X19: a conversion to bytes never returns more bytes than the text has
    pairs of characters: twice the length of what [hex_to_bytes],
    [hex_to_hash], [hex_to_root] or [hex_to_bloom] returns is at most the
    length of the input, and for a padded conversion at most the larger
    of [2 * width] and the length of the input. *)
Theorem decoded_length_bound (s : str) (bs : Bytes) :
  (hex_to_bytes s = Ok bs -> 2 * length bs <= length s)
  /\ (hex_to_hash s = Ok bs -> 2 * length bs <= length s)
  /\ (hex_to_root s = Ok bs -> 2 * length bs <= length s)
  /\ (hex_to_bloom s = Ok bs -> 2 * length bs <= length s)
  /\ (hex_to_bytes8 s = Ok bs -> 2 * length bs <= Nat.max 16 (length s))
  /\ (hex_to_bytes32 s = Ok bs -> 2 * length bs <= Nat.max 64 (length s))
  /\ (hex_to_address s = Ok bs -> 2 * length bs <= Nat.max 40 (length s)).
Proof.
  unfold hex_to_bytes, hex_to_hash, hex_to_root, hex_to_bloom,
    hex_to_bytes8, hex_to_bytes32, hex_to_address.
  rewrite !fmap_wrapper by reflexivity.
  pose proof (remove_hex_prefix_length s) as Hs.
  assert (Hplain : Py.bytes_fromhex (remove_hex_prefix s) = Ok bs ->
                   2 * length bs <= length s).
  { intros H. apply fromhex_length in H.
    pose proof (digit_count_le (remove_hex_prefix s)). lia. }
  assert (Hpad : forall n,
             Py.bytes_fromhex (Py.rjust (remove_hex_prefix s) n "0") = Ok bs ->
             2 * length bs <= Nat.max n (length s)).
  { intros n H. apply fromhex_length in H.
    pose proof (digit_count_le (Py.rjust (remove_hex_prefix s) n "0")) as Hd.
    rewrite rjust_length in Hd. lia. }
  repeat (split; [exact Hplain|]).
  split; [apply Hpad|split; apply Hpad].
Qed.

Lemma decoded_length_bound_witness :
  2 * length [x12; x34] <= length (py "0x12 34").
Proof.
  now apply (proj1 (decoded_length_bound (py "0x12 34") [x12; x34])).
Defined.
